(** * Quotation use case of the Boonkosang construction back end

    A shallow embedding of [usecase/quotation_usecase.go]: the quotation
    aggregator [buildQuotationResponse] with its helpers [getValidTime] and
    [roundFloat], and the three orchestrating operations
    [CreateOrGetQuotation], [ApproveQuotation] and [ExportQuotation], which
    talk to a [QuotationRepository].

    Go's [float64] is modelled bit-exactly by the IEEE 754 binary64
    specification of the Standard Library ([spec_float] at precision 53 and
    exponent bound 1024), so overflow, signed zeros and NaN behave as they do
    in the running program.

    Two further files are embedded after the use case: the configuration
    helpers [getEnv] and [getEnvAsInt] of [main.go], and the supplier
    repository of [supplier_repository.go] as scripts over the calls it
    makes to the database handle. *)

From Stdlib Require Import ZArith NArith List String Bool Lia.
From Stdlib Require Import SpecFloat.
Import ListNotations.

Set Implicit Arguments.

(* ================================================================== *)
(** * Go values *)

(** ** [float64] *)

Module F64.

Definition prec : Z := 53.
Definition emax : Z := 1024.

Definition float64 : Type := spec_float.

Definition add : float64 -> float64 -> float64 := SFadd prec emax.
Definition mul : float64 -> float64 -> float64 := SFmul prec emax.
Definition div : float64 -> float64 -> float64 := SFdiv prec emax.

(** Go's [==] on floats: NaN differs from everything, [-0 == +0]. *)
Definition eqb : float64 -> float64 -> bool := SFeqb.

(** The zero value of the type, [+0]. *)
Definition zero : float64 := S754_zero false.

(** An integer constant or conversion, correctly rounded. *)
Definition of_Z (z : Z) : float64 := binary_normalize prec emax z 0 false.

(** The decimal literal [m * 10^-k], as the Go compiler reads it: the
    nearest binary64 value.  IEEE division is correctly rounded and both
    operands are exact for the literals used here ([|m| < 2^53],
    [k <= 22]). *)
Definition dec (m : Z) (k : Z) : float64 := div (of_Z m) (of_Z (10 ^ k)).

Definition is_finite (x : float64) : bool :=
  match x with
  | S754_zero _ | S754_finite _ _ _ => true
  | S754_infinity _ | S754_nan => false
  end.

Definition is_nan (x : float64) : bool :=
  match x with S754_nan => true | _ => false end.

(** A well-formed binary64 datum (canonical mantissa and exponent). *)
Definition valid (x : float64) : bool := valid_binary prec emax x.

(** [math.Round]: the nearest integer, halves rounded away from zero;
    zeros, infinities and NaN are returned unchanged, and so is every
    value whose exponent leaves no fractional bits.  For a value
    [m * 2^e] with [e < 0] the magnitude becomes
    [(m + 2^(-e-1)) >> -e], which is what the library obtains by adding
    one half in the fraction bits and clearing them. *)
Definition Round (x : float64) : float64 :=
  match x with
  | S754_finite s m e =>
      if (0 <=? e)%Z then x
      else
        let k := (- e)%Z in
        let q := Z.shiftr (Zpos m + 2 ^ (k - 1)) k in
        binary_normalize prec emax (cond_Zopp s q) 0 s
  | _ => x
  end.

(** [math.Pow(x, float64(n))] at an unsigned integer exponent: the
    product of [n] factors [x], exact whenever the power is
    representable (as [10^2 = 100] is). *)
Definition Pow (x : float64) (n : N) : float64 :=
  N.iter n (fun acc => mul acc x) (of_Z 1).

(** Left-to-right summation from [+0], the order of a Go accumulation
    loop [total += v]. *)
Definition sum (l : list float64) : float64 := fold_left add l zero.

End F64.

Abbreviation float64 := F64.float64.

Declare Scope f64_scope.
Delimit Scope f64_scope with f64.
Infix "+" := F64.add : f64_scope.
Infix "*" := F64.mul : f64_scope.
Infix "/" := F64.div : f64_scope.
Infix "==" := F64.eqb (at level 70, no associativity) : f64_scope.

(** ** Slices

    A Go slice is either [nil] or a (possibly empty) backing sequence;
    [range] and [append] treat [nil] as empty, but [append] and [make]
    never give [nil] back. *)

Inductive slice (A : Type) : Type :=
| nil_slice : slice A
| mk_slice (l : list A) : slice A.
Arguments nil_slice {A}.

Definition elems {A} (s : slice A) : list A :=
  match s with
  | nil_slice => []
  | mk_slice l => l
  end.

Definition is_nil {A} (s : slice A) : bool :=
  match s with
  | nil_slice => true
  | mk_slice _ => false
  end.

(** [make([]T, 0)] *)
Definition make0 {A} : slice A := mk_slice [].

(** [append(s, x)] *)
Definition append {A} (s : slice A) (x : A) : slice A :=
  mk_slice (elems s ++ [x]).

(** ** Identifiers, time and nullable columns *)

(** [uuid.UUID], sixteen bytes read as one number. *)
Definition UUID : Type := N.

Module time.
(** [time.Time], by its two numeric words; the zero value [time.Time{}]
    has both at zero. *)
Record Time : Type := { wall : Z; ext : Z }.
Definition zero : Time := {| wall := 0; ext := 0 |}.
End time.

Module sql.
(** [sql.NullFloat64] *)
Record NullFloat64 : Type := { Float64 : float64; Valid : bool }.
(** [sql.NullTime] *)
Record NullTime : Type := { Time : time.Time; TimeValid : bool }.
End sql.

(** A present and an absent nullable number. *)
Definition present (x : float64) : sql.NullFloat64 :=
  {| sql.Float64 := x; sql.Valid := true |}.
Definition absent : sql.NullFloat64 :=
  {| sql.Float64 := F64.zero; sql.Valid := false |}.

(* ================================================================== *)
(** * Domain models and responses *)

Module models.

(** Modelled from the spec: the declarations of package [models] are not
    among the sources.  The records carry the fields that
    [quotation_usecase.go] reads, with the nullable columns of the data
    model as [sql.NullFloat64] and [sql.NullTime]; [Quantity], which the
    use case only copies, is taken to be a number. *)
Record Quotation : Type := {
  QuotationID : UUID;
  Status : string;
  ValidDate : sql.NullTime;
  TaxPercentage : sql.NullFloat64
}.

Record QuotationJob : Type := {
  JobName : string;
  Unit : string;
  Quantity : float64;
  LaborCost : float64;
  TotalLaborCost : float64;
  EstimatedPrice : sql.NullFloat64;
  TotalEstPrice : sql.NullFloat64;
  Total : sql.NullFloat64;
  SellingPrice : sql.NullFloat64
}.

Record QuotationGeneralCost : Type := {
  TypeName : string;
  EstimatedCost : sql.NullFloat64
}.

End models.

Module responses.

(** Modelled from the spec: the declarations of package [responses] are
    not among the sources.  The records carry the fields that
    [buildQuotationResponse] fills; a row's [SellingPrice] is a plain
    number, left at its zero value unless assigned. *)
Record QuotationJobDetail : Type := {
  Name : string;
  Unit : string;
  Quantity : float64;
  LaborCost : float64;
  MaterialCost : float64;
  TotalCost : float64;
  SellingPrice : float64
}.

Record GeneralCostDetail : Type := {
  TypeName : string;
  EstimatedCost : float64
}.

Record QuotationSummary : Type := {
  TotalLaborCost : float64;
  TotalMaterialCost : float64;
  TotalGeneralCost : float64;
  SubTotal : float64;
  Tax : float64;
  Total : float64
}.

Record QuotationResponse : Type := {
  QuotationID : UUID;
  Status : string;
  ValidDate : time.Time;
  Jobs : slice QuotationJobDetail;
  Costs : slice GeneralCostDetail;
  Summary : QuotationSummary
}.

End responses.

(* ================================================================== *)
(** * The aggregator *)

Definition getValidTime (nullTime : sql.NullTime) : time.Time :=
  if sql.TimeValid nullTime then sql.Time nullTime else time.zero.

Definition roundFloat (val : float64) (precision : N) : float64 :=
  let ratio := F64.Pow (F64.of_Z 10) precision in
  (F64.Round (val * ratio) / ratio)%f64.

(** One job row, as the body of the first loop builds it. *)
Definition jobDetail (job : models.QuotationJob) : responses.QuotationJobDetail :=
  let materialCost :=
    if sql.Valid (models.EstimatedPrice job)
    then sql.Float64 (models.EstimatedPrice job)
    else F64.zero in
  let totalCost :=
    if sql.Valid (models.Total job)
    then sql.Float64 (models.Total job)
    else models.TotalLaborCost job in
  {| responses.Name := models.JobName job;
     responses.Unit := models.Unit job;
     responses.Quantity := models.Quantity job;
     responses.LaborCost := models.LaborCost job;
     responses.MaterialCost := materialCost;
     responses.TotalCost := totalCost;
     responses.SellingPrice :=
       if sql.Valid (models.SellingPrice job)
       then sql.Float64 (models.SellingPrice job)
       else F64.zero |}.

(** The variables the first loop updates. *)
Record jobsAcc : Type := {
  accJobs : slice responses.QuotationJobDetail;
  totalLaborCost : float64;
  totalMaterialCost : float64
}.

Definition jobsStep (acc : jobsAcc) (job : models.QuotationJob) : jobsAcc :=
  {| totalLaborCost := (totalLaborCost acc + models.TotalLaborCost job)%f64;
     totalMaterialCost :=
       if sql.Valid (models.TotalEstPrice job)
       then (totalMaterialCost acc + sql.Float64 (models.TotalEstPrice job))%f64
       else totalMaterialCost acc;
     accJobs := append (accJobs acc) (jobDetail job) |}.

Definition processJobs (jobs : slice models.QuotationJob) : jobsAcc :=
  fold_left jobsStep (elems jobs)
    {| accJobs := make0; totalLaborCost := F64.zero; totalMaterialCost := F64.zero |}.

(** The variables the second loop updates. *)
Record costsAcc : Type := {
  accCosts : slice responses.GeneralCostDetail;
  totalGeneralCost : float64
}.

Definition costDetail (cost : models.QuotationGeneralCost) : responses.GeneralCostDetail :=
  {| responses.TypeName := models.TypeName cost;
     responses.EstimatedCost := sql.Float64 (models.EstimatedCost cost) |}.

Definition costsStep (acc : costsAcc) (cost : models.QuotationGeneralCost) : costsAcc :=
  if sql.Valid (models.EstimatedCost cost)
  then {| totalGeneralCost :=
            (totalGeneralCost acc + sql.Float64 (models.EstimatedCost cost))%f64;
          accCosts := append (accCosts acc) (costDetail cost) |}
  else acc.

Definition processCosts (costs : slice models.QuotationGeneralCost) : costsAcc :=
  fold_left costsStep (elems costs)
    {| accCosts := make0; totalGeneralCost := F64.zero |}.

(** The locals of the "Calculate summary" block, at full precision. *)
Record totals : Type := {
  subtotal : float64;
  taxPercentage : float64;
  tax : float64;
  total : float64
}.

Definition calculate (quotation : models.Quotation)
    (labor material general : float64) : totals :=
  let subtotal := (labor + material + general)%f64 in
  let taxPercentage :=
    if sql.Valid (models.TaxPercentage quotation)
    then sql.Float64 (models.TaxPercentage quotation)
    else F64.zero in
  let tax := (subtotal * (taxPercentage / F64.of_Z 100))%f64 in
  let total := (subtotal + tax)%f64 in
  {| subtotal := subtotal; taxPercentage := taxPercentage; tax := tax; total := total |}.

(** The full-precision totals of an input, before the output boundary. *)
Definition rawTotals (quotation : models.Quotation)
    (jobs : slice models.QuotationJob)
    (costs : slice models.QuotationGeneralCost) : totals :=
  calculate quotation
    (totalLaborCost (processJobs jobs))
    (totalMaterialCost (processJobs jobs))
    (totalGeneralCost (processCosts costs)).

Definition buildQuotationResponse (quotation : models.Quotation)
    (jobs : slice models.QuotationJob)
    (costs : slice models.QuotationGeneralCost) : responses.QuotationResponse :=
  let js := processJobs jobs in
  let cs := processCosts costs in
  let t := calculate quotation (totalLaborCost js) (totalMaterialCost js)
             (totalGeneralCost cs) in
  {| responses.QuotationID := models.QuotationID quotation;
     responses.Status := models.Status quotation;
     responses.ValidDate := getValidTime (models.ValidDate quotation);
     responses.Jobs := accJobs js;
     responses.Costs := accCosts cs;
     responses.Summary :=
       {| responses.TotalLaborCost := roundFloat (totalLaborCost js) 2;
          responses.TotalMaterialCost := roundFloat (totalMaterialCost js) 2;
          responses.TotalGeneralCost := roundFloat (totalGeneralCost cs) 2;
          responses.SubTotal := roundFloat (subtotal t) 2;
          responses.Tax := roundFloat (tax t) 2;
          responses.Total := roundFloat (total t) 2 |} |}.

(** The rule of the specification, [round(x*100)/100]. *)
Definition round2 (x : float64) : float64 :=
  (F64.Round (x * F64.of_Z 100) / F64.of_Z 100)%f64.

(** ** Vocabulary for the properties *)

(** A job with a total estimated price, and that price. *)
Definition pricedJob (job : models.QuotationJob) : bool :=
  sql.Valid (models.TotalEstPrice job).

Definition totalEst (job : models.QuotationJob) : float64 :=
  sql.Float64 (models.TotalEstPrice job).

(** A general cost with an estimated cost, and that cost. *)
Definition pricedCost (cost : models.QuotationGeneralCost) : bool :=
  sql.Valid (models.EstimatedCost cost).

Definition estCost (cost : models.QuotationGeneralCost) : float64 :=
  sql.Float64 (models.EstimatedCost cost).

(** What a row displays for its job; [labor] is the number that stands in
    for the total cost of a job without a precomputed total. *)
Definition row_matches (labor : models.QuotationJob -> float64)
    (job : models.QuotationJob) (row : responses.QuotationJobDetail) : Prop :=
  responses.MaterialCost row
    = (if sql.Valid (models.EstimatedPrice job)
       then sql.Float64 (models.EstimatedPrice job) else F64.zero)
  /\ responses.TotalCost row
    = (if sql.Valid (models.Total job)
       then sql.Float64 (models.Total job) else labor job)
  /\ responses.SellingPrice row
    = (if sql.Valid (models.SellingPrice job)
       then sql.Float64 (models.SellingPrice job) else F64.zero).

(* ================================================================== *)
(** * The repository interface *)

(** Go's [error] values, as far as the use case makes or wraps them:
    [errors.New(text)] and [fmt.Errorf(context + "%w", err)].  An error
    coming out of the repository is any value of this type. *)
Inductive error : Type :=
| errors_New (text : string)
| fmt_Errorf (context : string) (err : error).

Module export.
(** Modelled from the spec: [models.QuotationExportData], whose
    declaration is not among the sources; the export data set is the
    denormalized bundle of project, jobs, costs and summary.  The use
    case only hands it through. *)
Record QuotationExportData : Type := {
  ProjectID : UUID;
  Jobs : slice responses.QuotationJobDetail;
  Costs : slice responses.GeneralCostDetail;
  Summary : responses.QuotationSummary
}.
End export.

Module repositories.

(** The methods of [repositories.QuotationRepository] that the use case
    calls, with their arguments. *)
Inductive Call : Type :=
| CheckBOQStatus (projectID : UUID)
| GetByProjectID (projectID : UUID)
| Create (projectID : UUID)
| GetQuotationJobs (projectID : UUID)
| GetQuotationGeneralCosts (projectID : UUID)
| ValidateApproval (projectID : UUID)
| ApproveQuotation (projectID : UUID)
| GetQuotationStatus (projectID : UUID)
| GetExportData (projectID : UUID).

(** What each method returns: Go's result tuple, a pointer being
    [option] and the [error] being [None] for [nil]. *)
Definition Resp (c : Call) : Type :=
  match c with
  | CheckBOQStatus _ => (string * option error)%type
  | GetByProjectID _ => (option models.Quotation * option error)%type
  | Create _ => (option models.Quotation * option error)%type
  | GetQuotationJobs _ => (slice models.QuotationJob * option error)%type
  | GetQuotationGeneralCosts _ =>
      (slice models.QuotationGeneralCost * option error)%type
  | ValidateApproval _ => option error
  | ApproveQuotation _ => option error
  | GetQuotationStatus _ => (string * option error)%type
  | GetExportData _ => (option export.QuotationExportData * option error)%type
  end.

(** An implementation of the interface over a store [S]: each call
    answers and leaves a store behind. *)
Record QuotationRepository (S : Type) : Type := {
  respond : forall c : Call, S -> Resp c * S
}.

(** The calls that only query; [Create] and [ApproveQuotation] are the
    two that persist. *)
Definition is_query (c : Call) : bool :=
  match c with
  | Create _ | ApproveQuotation _ => false
  | _ => true
  end.

End repositories.

Import repositories.

(** One repository call as it happened: the call and its answer. *)
Record Event : Type := { call : Call; resp : Resp call }.

Definition calls (tr : list Event) : list Call := map call tr.

(* ================================================================== *)
(** * The use case as a program over repository calls *)

(** A Go function that calls the repository: it returns, panics (a nil
    pointer dereference), or makes a call and goes on with the answer. *)
Inductive Prog (R : Type) : Type :=
| Ret (r : R)
| Panic
| Invoke (c : Call) (k : Resp c -> Prog R).
Arguments Panic {R}.

Notation "'invoke' ( a , b ) <- c ;; k" :=
  (Invoke c (fun ab => let '(a, b) := ab in k))
  (at level 10, a name, b name, c at level 100, k at level 200,
   format "'[v' 'invoke'  ( a ,  b )  <-  c  ;; '/' k ']'").
Notation "'invoke' a <- c ;; k" :=
  (Invoke c (fun a => k))
  (at level 10, a name, c at level 100, k at level 200,
   format "'[v' 'invoke'  a  <-  c  ;; '/' k ']'").

(** How a run ends. *)
Inductive Outcome (R : Type) : Type :=
| Returned (r : R)
| Panicked.
Arguments Panicked {R}.

Record Run (R S : Type) : Type := {
  outcome : Outcome R;
  store : S;
  trace : list Event
}.

Section Running.
Context {S : Type} (repo : QuotationRepository S).

Fixpoint run {R} (p : Prog R) (s : S) : Run R S :=
  match p with
  | Ret r => {| outcome := Returned r; store := s; trace := [] |}
  | Panic => {| outcome := Panicked; store := s; trace := [] |}
  | Invoke c k =>
      let '(r, s') := respond repo c s in
      let rest := run (k r) s' in
      {| outcome := outcome rest;
         store := store rest;
         trace := {| call := c; resp := r |} :: trace rest |}
  end.
End Running.

Module usecase.

Definition notApprovedForCreate : error :=
  errors_New "BOQ must be approved before creating quotation".
Definition notApprovedForExport : error :=
  errors_New "BOQ must be approved before exporting quotation".
Definition onlyApprovedExported : error :=
  errors_New "only approved quotations can be exported".

(** [u.buildQuotationResponse(quotation, jobs, costs)] on a pointer:
    reading through a nil [quotation] panics. *)
Definition buildThrough {R} (quotation : option models.Quotation)
    (jobs : slice models.QuotationJob)
    (costs : slice models.QuotationGeneralCost)
    (k : responses.QuotationResponse -> Prog R) : Prog R :=
  match quotation with
  | None => Panic
  | Some q => k (buildQuotationResponse q jobs costs)
  end.

Definition CreateOrGetQuotation (projectID : UUID)
  : Prog (option responses.QuotationResponse * option error) :=
  invoke (boqStatus, err) <- CheckBOQStatus projectID ;;
  match err with
  | Some e => Ret (None, Some e)
  | None =>
  if negb (boqStatus =? "approved")%string
  then Ret (None, Some notApprovedForCreate)
  else
  invoke (quotation, err) <- GetByProjectID projectID ;;
  match err with
  | Some e => Ret (None, Some e)
  | None =>
  let rest (quotation : option models.Quotation) :=
    invoke (jobs, err) <- GetQuotationJobs projectID ;;
    match err with
    | Some e => Ret (None, Some e)
    | None =>
    invoke (costs, err) <- GetQuotationGeneralCosts projectID ;;
    match err with
    | Some e => Ret (None, Some e)
    | None =>
    buildThrough quotation jobs costs (fun response =>
    Ret (Some response, None))
    end end in
  match quotation with
  | None =>
      invoke (quotation, err) <- Create projectID ;;
      match err with
      | Some e => Ret (None, Some e)
      | None => rest quotation
      end
  | Some _ => rest quotation
  end
  end end.

Definition ApproveQuotation (projectID : UUID) : Prog (option error) :=
  invoke err <- ValidateApproval projectID ;;
  match err with
  | Some e => Ret (Some e)
  | None =>
  invoke err <- repositories.ApproveQuotation projectID ;;
  match err with
  | Some e => Ret (Some e)
  | None =>
  invoke (quotation, err) <- GetByProjectID projectID ;;
  match err with
  | Some e => Ret (Some (fmt_Errorf "failed to get updated quotation: " e))
  | None =>
  invoke (jobs, err) <- GetQuotationJobs projectID ;;
  match err with
  | Some e => Ret (Some (fmt_Errorf "failed to get quotation jobs: " e))
  | None =>
  invoke (costs, err) <- GetQuotationGeneralCosts projectID ;;
  match err with
  | Some e => Ret (Some (fmt_Errorf "failed to get quotation costs: " e))
  | None =>
  buildThrough quotation jobs costs (fun _ => Ret None)
  end end end end end.

Definition ExportQuotation (projectID : UUID)
  : Prog (option export.QuotationExportData * option error) :=
  invoke (boqStatus, err) <- CheckBOQStatus projectID ;;
  match err with
  | Some e => Ret (None, Some e)
  | None =>
  if negb (boqStatus =? "approved")%string
  then Ret (None, Some notApprovedForExport)
  else
  invoke (quotationStatus, err) <- GetQuotationStatus projectID ;;
  match err with
  | Some e => Ret (None, Some e)
  | None =>
  if negb (quotationStatus =? "approved")%string
  then Ret (None, Some onlyApprovedExported)
  else
  invoke (exportData, err) <- GetExportData projectID ;;
  match err with
  | Some e => Ret (None, Some e)
  | None => Ret (exportData, None)
  end end end.

End usecase.

Arguments buildQuotationResponse : simpl never.

(* ================================================================== *)
(** * Reading a trace *)

Definition isCreate (ev : Event) : bool :=
  match call ev with
  | Create _ => true
  | _ => false
  end.

(** A [Create] that came back without error. *)
Definition created (ev : Event) : bool :=
  match ev with
  | Build_Event c r =>
      match c return Resp c -> bool with
      | Create _ => fun r => match snd r with None => true | Some _ => false end
      | _ => fun _ => false
      end r
  end.

(** A [GetByProjectID] that found nothing: [nil, nil]. *)
Definition lookupMissed (ev : Event) : bool :=
  match ev with
  | Build_Event c r =>
      match c return Resp c -> bool with
      | GetByProjectID _ =>
          fun r => match r with
                   | (None, None) => true
                   | _ => false
                   end
      | _ => fun _ => false
      end r
  end.

(** A call that came back with an error. *)
Definition failed (ev : Event) : bool :=
  let some {A} (o : option A) := match o with Some _ => true | None => false end in
  match ev with
  | Build_Event c r =>
      match c return Resp c -> bool with
      | CheckBOQStatus _ => fun r => some (snd r)
      | GetByProjectID _ => fun r => some (snd r)
      | Create _ => fun r => some (snd r)
      | GetQuotationJobs _ => fun r => some (snd r)
      | GetQuotationGeneralCosts _ => fun r => some (snd r)
      | ValidateApproval _ => fun r => some r
      | ApproveQuotation _ => fun r => some r
      | GetQuotationStatus _ => fun r => some (snd r)
      | GetExportData _ => fun r => some (snd r)
      end r
  end.

Definition is_prefix {A} (l full : list A) : Prop :=
  exists rest, l ++ rest = full.

(** What the use case relies on in a repository for project [projectID],
    with [has s] reading "the store [s] holds a quotation of the project":
    a [Create] that reports no error leaves one behind, no call removes
    it, and a lookup never answers [nil, nil] while it is there. *)
Record keeps_quotation {S : Type} (repo : QuotationRepository S)
    (projectID : UUID) (has : S -> Prop) : Prop := {
  create_persists :
    forall s q s', respond repo (Create projectID) s = ((q, None), s') -> has s';
  calls_preserve :
    forall c s, has s -> has (snd (respond repo c s));
  lookup_finds :
    forall s, has s ->
              fst (respond repo (GetByProjectID projectID) s) <> (None, None)
}.

(* ================================================================== *)
(** * Sample data *)

(** A draft quotation without tax percentage or validity date. *)
Definition plainQuotation : models.Quotation :=
  {| models.QuotationID := 1%N;
     models.Status := "draft";
     models.ValidDate := {| sql.Time := time.zero; sql.TimeValid := false |};
     models.TaxPercentage := absent |}.

(** Three units at a labour cost of 16.668 each, a total labour cost of
    50.004, and nothing else priced. *)
Definition unpricedJob : models.QuotationJob :=
  {| models.JobName := "excavation";
     models.Unit := "m3";
     models.Quantity := F64.of_Z 3;
     models.LaborCost := F64.dec 16668 3;
     models.TotalLaborCost := F64.dec 50004 3;
     models.EstimatedPrice := absent;
     models.TotalEstPrice := absent;
     models.Total := absent;
     models.SellingPrice := absent |}.

(** A job whose total labour cost is 10^308. *)
Definition hugeJob : models.QuotationJob :=
  {| models.JobName := "tower";
     models.Unit := "lot";
     models.Quantity := F64.of_Z 1;
     models.LaborCost := F64.of_Z (10 ^ 308);
     models.TotalLaborCost := F64.of_Z (10 ^ 308);
     models.EstimatedPrice := absent;
     models.TotalEstPrice := absent;
     models.Total := absent;
     models.SellingPrice := absent |}.

(** A job of the end-to-end example: [labor] is its total labour cost,
    [material] its total estimated price, [jobTotal] its precomputed
    total; the remaining columns do not enter the summary. *)
Definition exampleJob (name unit : string) (quantity unitLabor : float64)
    (unitPrice selling : sql.NullFloat64)
    (labor : float64) (material jobTotal : sql.NullFloat64) : models.QuotationJob :=
  {| models.JobName := name;
     models.Unit := unit;
     models.Quantity := quantity;
     models.LaborCost := unitLabor;
     models.TotalLaborCost := labor;
     models.EstimatedPrice := unitPrice;
     models.TotalEstPrice := material;
     models.Total := jobTotal;
     models.SellingPrice := selling |}.

Definition exampleCost (name : string) (est : sql.NullFloat64) : models.QuotationGeneralCost :=
  {| models.TypeName := name; models.EstimatedCost := est |}.

(* ================================================================== *)
(** * An in-memory repository *)

Module memory.

(** Modelled from the spec: the relational store behind
    [QuotationRepository], whose implementation is not among the
    sources.  One BOQ status and at most one quotation per project, job
    and cost rows keyed by project. *)
Record Store : Type := {
  boqs : list (UUID * string);
  quotations : list (UUID * models.Quotation);
  jobs : list (UUID * models.QuotationJob);
  costs : list (UUID * models.QuotationGeneralCost)
}.

Definition lookup {A} (projectID : UUID) (table : list (UUID * A)) : option A :=
  option_map snd (find (fun row => N.eqb (fst row) projectID) table).

Definition rows {A} (projectID : UUID) (table : list (UUID * A)) : slice A :=
  mk_slice (map snd (filter (fun row => N.eqb (fst row) projectID) table)).

Definition notFound : error := errors_New "sql: no rows in result set".
Definition notApprovable : error := errors_New "quotation cannot be approved".

(** A new row: the repository assigns the id, the status is draft. *)
Definition newQuotation (s : Store) : models.Quotation :=
  {| models.QuotationID := N.succ (N.of_nat (List.length (quotations s)));
     models.Status := "draft";
     models.ValidDate := {| sql.Time := time.zero; sql.TimeValid := false |};
     models.TaxPercentage := absent |}.

Definition approve (q : models.Quotation) : models.Quotation :=
  {| models.QuotationID := models.QuotationID q;
     models.Status := "approved";
     models.ValidDate := models.ValidDate q;
     models.TaxPercentage := models.TaxPercentage q |}.

Definition withQuotations (s : Store) (table : list (UUID * models.Quotation)) : Store :=
  {| boqs := boqs s; quotations := table; jobs := jobs s; costs := costs s |}.

Definition exportOf (projectID : UUID) (s : Store) (q : models.Quotation)
  : export.QuotationExportData :=
  let r := buildQuotationResponse q (rows projectID (jobs s)) (rows projectID (costs s)) in
  {| export.ProjectID := projectID;
     export.Jobs := responses.Jobs r;
     export.Costs := responses.Costs r;
     export.Summary := responses.Summary r |}.

(** Modelled from the spec: the collaborator contracts of its section
    on external interfaces. *)
Definition handle (c : Call) (s : Store) : Resp c * Store :=
  match c as c0 return Resp c0 * Store with
  | CheckBOQStatus p =>
      match lookup p (boqs s) with
      | Some status => ((status, None), s)
      | None => ((EmptyString, Some notFound), s)
      end
  | GetByProjectID p => ((lookup p (quotations s), None), s)
  | Create p =>
      let q := newQuotation s in
      ((Some q, None), withQuotations s (quotations s ++ [(p, q)]))
  | GetQuotationJobs p => ((rows p (jobs s), None), s)
  | GetQuotationGeneralCosts p => ((rows p (costs s), None), s)
  | ValidateApproval p =>
      match lookup p (boqs s), lookup p (quotations s) with
      | Some status, Some q =>
          if ((status =? "approved") && (models.Status q =? "draft"))%string
          then (None, s)
          else (Some notApprovable, s)
      | _, _ => (Some notApprovable, s)
      end
  | ApproveQuotation p =>
      match lookup p (quotations s) with
      | Some _ =>
          (None,
           withQuotations s
             (map (fun row => if N.eqb (fst row) p
                              then (fst row, approve (snd row)) else row)
                  (quotations s)))
      | None => (Some notFound, s)
      end
  | GetQuotationStatus p =>
      match lookup p (quotations s) with
      | Some q => ((models.Status q, None), s)
      | None => ((EmptyString, Some notFound), s)
      end
  | GetExportData p =>
      match lookup p (quotations s) with
      | Some q => ((Some (exportOf p s q), None), s)
      | None => ((None, Some notFound), s)
      end
  end.

Definition repo : QuotationRepository Store := {| respond := handle |}.

(** Project 7 with the given BOQ status, no quotation yet, one job and
    one general cost. *)
Definition project7 (status : string) : Store :=
  {| boqs := [(7%N, status)];
     quotations := [];
     jobs := [(7%N, unpricedJob)];
     costs := [(7%N, exampleCost "transport" (present (F64.of_Z 30)))] |}.

End memory.

(** Project 7 with an approved BOQ and a quotation of the given status. *)
Definition quoted7 (status : string) : memory.Store :=
  memory.withQuotations (memory.project7 "approved")
    [(7%N, {| models.QuotationID := 1%N;
              models.Status := status;
              models.ValidDate := {| sql.Time := time.zero; sql.TimeValid := false |};
              models.TaxPercentage := present (F64.of_Z 7) |})].

(** The quotations of the in-memory repository, as the contract sees
    them. *)
Definition holds (projectID : UUID) (s : memory.Store) : Prop :=
  memory.lookup projectID (memory.quotations s) <> None.

(** A failed fetch after the approval: the in-memory repository with a
    lookup that breaks once the quotation is approved. *)
Definition brokenLookup : QuotationRepository memory.Store :=
  {| respond := fun c s =>
       match c as c0 return Resp c0 * memory.Store with
       | GetByProjectID p =>
           match option_map models.Status (memory.lookup p (memory.quotations s)) with
           | Some "approved"%string => ((None, Some memory.notFound), s)
           | _ => memory.handle (GetByProjectID p) s
           end
       | c0 => memory.handle c0 s
       end |}.

(** A lookup that finds nothing right after the approval makes the final
    aggregation read through a nil pointer. *)
Definition lostQuotation : QuotationRepository memory.Store :=
  {| respond := fun c s =>
       match c as c0 return Resp c0 * memory.Store with
       | GetByProjectID p => ((None, None), s)
       | c0 => memory.handle c0 s
       end |}.

(* ================================================================== *)
(** * Two properties in the wording of the specification *)

(** The reading of the row-and-labour property in which the summary holds
    the plain sum of the jobs' [labor]. *)
Definition rows_and_labor_as_stated (labor : models.QuotationJob -> float64)
    (quotation : models.Quotation) (jobs : slice models.QuotationJob)
    (costs : slice models.QuotationGeneralCost) : Prop :=
  let r := buildQuotationResponse quotation jobs costs in
  Forall2 (row_matches labor) (elems jobs) (elems (responses.Jobs r))
  /\ responses.TotalLaborCost (responses.Summary r)
     = F64.sum (map labor (elems jobs)).

(** The reading of the absent-tax property as an unconditional one, with
    Go's [==]. *)
Definition absent_tax_as_stated (quotation : models.Quotation)
    (jobs : slice models.QuotationJob)
    (costs : slice models.QuotationGeneralCost) : Prop :=
  let t := rawTotals quotation jobs costs in
  sql.Valid (models.TaxPercentage quotation) = false ->
  (tax t == F64.zero)%f64 = true /\ (total t == subtotal t)%f64 = true.

(* ================================================================== *)
(** * Reading an answer *)

(** The error inside a repository answer, [None] for [nil]. *)
Definition errorOf (ev : Event) : option error :=
  match ev with
  | Build_Event c r =>
      match c return Resp c -> option error with
      | CheckBOQStatus _ => fun r => snd r
      | GetByProjectID _ => fun r => snd r
      | Create _ => fun r => snd r
      | GetQuotationJobs _ => fun r => snd r
      | GetQuotationGeneralCosts _ => fun r => snd r
      | ValidateApproval _ => fun r => r
      | ApproveQuotation _ => fun r => r
      | GetQuotationStatus _ => fun r => snd r
      | GetExportData _ => fun r => snd r
      end r
  end.

(** The quotation pointer inside an answer of [GetByProjectID] or
    [Create]. *)
Definition quotationOf (ev : Event) : option models.Quotation :=
  match ev with
  | Build_Event c r =>
      match c return Resp c -> option models.Quotation with
      | GetByProjectID _ => fun r => fst r
      | Create _ => fun r => fst r
      | _ => fun _ => None
      end r
  end.

(** The in-memory repository with an approval write that always fails. *)
Definition refusingWrite : QuotationRepository memory.Store :=
  {| respond := fun c s =>
       match c as c0 return Resp c0 * memory.Store with
       | ApproveQuotation p => (Some memory.notFound, s)
       | c0 => memory.handle c0 s
       end |}.

(** The in-memory repository with a Create that hands back nothing. *)
Definition emptyCreate : QuotationRepository memory.Store :=
  {| respond := fun c s =>
       match c as c0 return Resp c0 * memory.Store with
       | Create p => ((None, None), s)
       | c0 => memory.handle c0 s
       end |}.

(** Two jobs that carry the same money into the summary. *)
Definition sameMoney (a b : models.QuotationJob) : Prop :=
  models.TotalLaborCost a = models.TotalLaborCost b
  /\ models.TotalEstPrice a = models.TotalEstPrice b.

(** [-x] *)
Definition neg (x : float64) : float64 := SFopp x.

(* ================================================================== *)
(** * Configuration from the environment ([main.go]) *)

Module main.

(** The process environment as [os.LookupEnv] reads it: names with their
    values, the first entry of a name winning. *)
Definition Environ : Type := list (string * string).

Definition LookupEnv (env : Environ) (key : string) : option string :=
  option_map snd (find (fun entry => String.eqb (fst entry) key) env).

Definition getEnv (env : Environ) (key defaultValue : string) : string :=
  match LookupEnv env key with
  | Some value => value
  | None => defaultValue
  end.

(** The value of a decimal digit. *)
Definition digit (c : Ascii.ascii) : option Z :=
  let n := Z.of_nat (Ascii.nat_of_ascii c) in
  if ((48 <=? n) && (n <=? 57))%Z then Some (n - 48)%Z else None.

(** The digit loop of [strconv.Atoi]: [n = n*10 + ch]. *)
Fixpoint digits (n : Z) (s : string) : option Z :=
  match s with
  | EmptyString => Some n
  | String ch rest =>
      match digit ch with
      | Some d => digits (n * 10 + d) rest
      | None => None
      end
  end.

(** The characters ['+'] (43) and ['-'] (45). *)
Definition isMinus (c : Ascii.ascii) : bool :=
  Nat.eqb (Ascii.nat_of_ascii c) 45.

Definition isSign (c : Ascii.ascii) : bool :=
  Nat.eqb (Ascii.nat_of_ascii c) 43 || isMinus c.

(** [strconv.Atoi] for a 64-bit [int]: an optional sign, then at least
    one decimal digit and nothing else, the value within the range of the
    type; [None] stands for its error. *)
Definition Atoi (s : string) : option Z :=
  match s with
  | EmptyString => None
  | String c rest =>
      let body := if isSign c then rest else s in
      match body with
      | EmptyString => None
      | _ =>
          match digits 0 body with
          | Some n =>
              let v := if isMinus c then (- n)%Z else n in
              if ((- 2 ^ 63 <=? v) && (v <? 2 ^ 63))%Z then Some v else None
          | None => None
          end
      end
  end.

Definition getEnvAsInt (env : Environ) (key : string) (defaultValue : Z) : Z :=
  let valueStr := getEnv env key "" in
  match Atoi valueStr with
  | Some value => value
  | None => defaultValue
  end.

End main.

(* ================================================================== *)
(** * The supplier repository ([supplier_repository.go]) *)

Module strings.

(** [strings.Contains(s, substr)] *)
Definition Contains (s substr : string) : bool :=
  match String.index 0 substr s with
  | Some _ => true
  | None => false
  end.

End strings.

Module postgres.

(** Errors as this file handles them.  [sql.ErrNoRows] is compared by
    identity ([err == sql.ErrNoRows]), so the sentinel is a value of its
    own, different from any other error of the same text. *)
Inductive error : Type :=
| sql_ErrNoRows
| errors_New (text : string)
| fmt_Errorf (context : string) (err : error).

(** [err.Error()] *)
Fixpoint Error (e : error) : string :=
  match e with
  | sql_ErrNoRows => "sql: no rows in result set"
  | errors_New text => text
  | fmt_Errorf context err => context ++ Error err
  end.

(** Modelled from the spec: [models.Supplier] and the two request types
    are declared outside the sources; the records carry the fields this
    file reads and writes. *)
Record Supplier : Type := {
  SupplierID : UUID;
  Name : string;
  Email : string;
  Tel : string;
  Address : string
}.

Module CreateSupplierRequest.
Record t : Type := { Name : string; Email : string; Tel : string; Address : string }.
End CreateSupplierRequest.

Module UpdateSupplierRequest.
Record t : Type := { Name : string; Email : string; Tel : string; Address : string }.
End UpdateSupplierRequest.

(** [&models.Supplier{}] *)
Definition emptySupplier : Supplier :=
  {| SupplierID := 0%N; Name := ""; Email := ""; Tel := ""; Address := "" |}.

(** A query argument, [interface{}] in the source. *)
Inductive arg : Type :=
| arg_uuid (id : UUID)
| arg_string (s : string)
| arg_int (n : Z).

Definition nl : string := String (Ascii.ascii_of_nat 10) EmptyString.
Definition tab : string := String (Ascii.ascii_of_nat 9) EmptyString.

Definition createQuery : string :=
  nl ++ tab ++ "INSERT INTO Supplier (" ++ nl ++ tab ++
  "supplier_id, name, email,tel, address" ++ nl ++ tab ++ ") VALUES (" ++
  nl ++ tab ++ " :supplier_id, :name , :email, :tel, :address" ++ nl ++
  tab ++ " ) RETURNING *" ++ nl ++ tab.

Definition updateQuery : string :=
  nl ++ "        UPDATE Supplier SET " ++ nl ++
  "            name = :name," ++ nl ++ "            email = :email," ++
  nl ++ "            tel = :tel," ++ nl ++
  "            address = :address," ++ nl ++
  "        WHERE supplier_id = :supplier_id".

Definition deleteQuery : string :=
  "DELETE FROM Supplier WHERE supplier_id = $1".

Definition getByIDQuery : string :=
  "SELECT * FROM Supplier WHERE supplier_id = $1".

Definition getByEmailQuery : string :=
  "SELECT * FROM Supplier WHERE email = $1".

Definition countQuery : string :=
  "SELECT COUNT(*) FROM Supplier".

Definition listQuery : string :=
  nl ++ "        SELECT * FROM Supplier " ++ nl ++
  "        LIMIT $1 OFFSET $2".

(** What the repository asks of its surroundings: a fresh id, the
    database handle, and the rows and the result a statement gave back.
    [GetContext] is used with a supplier and with a counter as
    destination. *)
Inductive Call : Type :=
| uuid_New
| NamedQueryContext (query : string) (arg : Supplier)
| rows_Next
| rows_StructScan (dest : Supplier)
| rows_Close
| NamedExecContext (query : string) (params : list (string * arg))
| ExecContext (query : string) (args : list arg)
| result_RowsAffected
| GetContext_Supplier (dest : Supplier) (query : string) (args : list arg)
| GetContext_int64 (dest : Z) (query : string) (args : list arg)
| SelectContext (dest : slice Supplier) (query : string) (args : list arg).

(** The answers: an [error] is [None] for [nil]; a call that fills a
    destination answers with the destination as it left it. *)
Definition Resp (c : Call) : Type :=
  match c with
  | uuid_New => UUID
  | NamedQueryContext _ _ => option error
  | rows_Next => bool
  | rows_StructScan _ => (Supplier * option error)%type
  | rows_Close => unit
  | NamedExecContext _ _ => option error
  | ExecContext _ _ => option error
  | result_RowsAffected => (Z * option error)%type
  | GetContext_Supplier _ _ _ => (Supplier * option error)%type
  | GetContext_int64 _ _ _ => (Z * option error)%type
  | SelectContext _ _ _ => (slice Supplier * option error)%type
  end.

Record Event : Type := { call : Call; resp : Resp call }.

Definition calls (tr : list Event) : list Call := map call tr.

(** A method of the repository: it returns, or asks and goes on. *)
Inductive Script (R : Type) : Type :=
| Done (r : R)
| Ask (c : Call) (k : Resp c -> Script R).

Local Notation "'perform' ( a , b ) <- c ;; k" :=
  (Ask c (fun ab => let '(a, b) := ab in k))
  (at level 10, a name, b name, c at level 100, k at level 200).
Local Notation "'perform' a <- c ;; k" :=
  (Ask c (fun a => k))
  (at level 10, a name, c at level 100, k at level 200).

(** The surroundings, over a state [D]. *)
Record DB (D : Type) : Type := {
  answer : forall c : Call, D -> Resp c * D
}.

Record Run (R D : Type) : Type := {
  returned : R;
  after : D;
  trace : list Event
}.

Fixpoint run {D R} (db : DB D) (p : Script R) (d : D) : Run R D :=
  match p with
  | Done r => {| returned := r; after := d; trace := [] |}
  | Ask c k =>
      let '(r, d') := answer db c d in
      let rest := run db (k r) d' in
      {| returned := returned rest;
         after := after rest;
         trace := {| call := c; resp := r |} :: trace rest |}
  end.

Definition duplicateEmail : error :=
  errors_New "supplier with this email already exists".
Definition supplierNotFound : error := errors_New "supplier not found".
Definition noRowsReturned : error :=
  errors_New "failed to create  supplier: no rows returned".

Definition Create (req : CreateSupplierRequest.t)
  : Script (option Supplier * option error) :=
  perform id <- uuid_New ;;
  let supplier :=
    {| SupplierID := id;
       Name := CreateSupplierRequest.Name req;
       Email := CreateSupplierRequest.Email req;
       Tel := CreateSupplierRequest.Tel req;
       Address := CreateSupplierRequest.Address req |} in
  perform err <- NamedQueryContext createQuery supplier ;;
  match err with
  | Some err =>
      if strings.Contains (Error err) "unique constraint"
      then Done (None, Some duplicateEmail)
      else Done (None, Some (fmt_Errorf "filed to create supplier: " err))
  | None =>
      (* defer rows.Close() *)
      perform more <- rows_Next ;;
      if more : bool
      then
        perform (supplier, err) <- rows_StructScan supplier ;;
        match err with
        | Some err =>
            perform closed <- rows_Close ;;
            Done (None, Some (fmt_Errorf "failed to scan supplier: " err))
        | None =>
            perform closed <- rows_Close ;;
            Done (Some supplier, None)
        end
      else
        perform closed <- rows_Close ;;
        Done (None, Some noRowsReturned)
  end.

Definition updateParams (id : UUID) (req : UpdateSupplierRequest.t)
  : list (string * arg) :=
  [ ("supplier_id"%string, arg_uuid id);
    ("name"%string, arg_string (UpdateSupplierRequest.Name req));
    ("email"%string, arg_string (UpdateSupplierRequest.Email req));
    ("tel"%string, arg_string (UpdateSupplierRequest.Tel req));
    ("address"%string, arg_string (UpdateSupplierRequest.Address req)) ].

Definition Update (id : UUID) (req : UpdateSupplierRequest.t)
  : Script (option error) :=
  perform err <- NamedExecContext updateQuery (updateParams id req) ;;
  match err with
  | Some err =>
      if strings.Contains (Error err) "unique constraint"
      then Done (Some duplicateEmail)
      else Done (Some (fmt_Errorf "failed to update supplier: " err))
  | None =>
      perform (rows, err) <- result_RowsAffected ;;
      match err with
      | Some err => Done (Some (fmt_Errorf "failed to get affected rows: " err))
      | None =>
          if (rows =? 0)%Z
          then Done (Some supplierNotFound)
          else Done None
      end
  end.

Definition Delete (id : UUID) : Script (option error) :=
  perform err <- ExecContext deleteQuery [arg_uuid id] ;;
  match err with
  | Some err => Done (Some (fmt_Errorf "failed to delete supplier: " err))
  | None =>
      perform (rows, err) <- result_RowsAffected ;;
      match err with
      | Some err => Done (Some (fmt_Errorf "failed to get affected rows: " err))
      | None =>
          if (rows =? 0)%Z
          then Done (Some supplierNotFound)
          else Done None
      end
  end.

Definition GetByID (id : UUID) : Script (option Supplier * option error) :=
  perform (supplier, err) <-
    GetContext_Supplier emptySupplier getByIDQuery [arg_uuid id] ;;
  match err with
  | Some sql_ErrNoRows => Done (None, Some supplierNotFound)
  | Some err => Done (None, Some (fmt_Errorf "failed to get supplier: " err))
  | None => Done (Some supplier, None)
  end.

Definition GetByEmail (email : string) : Script (option Supplier * option error) :=
  perform (supplier, err) <-
    GetContext_Supplier emptySupplier getByEmailQuery [arg_string email] ;;
  match err with
  | Some sql_ErrNoRows => Done (None, None)
  | Some err => Done (None, Some (fmt_Errorf "failed to get supplier: " err))
  | None => Done (Some supplier, None)
  end.

Definition List (limit offset : Z)
  : Script (slice Supplier * Z * option error) :=
  perform (total, err) <- GetContext_int64 0%Z countQuery [] ;;
  match err with
  | Some err =>
      Done (nil_slice, 0%Z, Some (fmt_Errorf "failed to get total count: " err))
  | None =>
      perform (suppliers, err) <-
        SelectContext nil_slice listQuery [arg_int limit; arg_int offset] ;;
      match err with
      | Some err =>
          Done (nil_slice, 0%Z, Some (fmt_Errorf "failed to list suppliers: " err))
      | None => Done (suppliers, total, None)
      end
  end.

(** Surroundings that give the same answers whatever they are asked, for
    trying the methods out. *)
Record Canned : Type := {
  newID : UUID;
  queryErr : option error;
  hasRow : bool;
  scanned : Supplier * option error;
  execErr : option error;
  affected : Z * option error;
  got : Supplier * option error;
  counted : Z * option error;
  selected : slice Supplier * option error
}.

Definition canned : DB Canned :=
  {| answer := fun c d =>
       match c as c0 return Resp c0 * Canned with
       | uuid_New => (newID d, d)
       | NamedQueryContext _ _ => (queryErr d, d)
       | rows_Next => (hasRow d, d)
       | rows_StructScan _ => (scanned d, d)
       | rows_Close => (tt, d)
       | NamedExecContext _ _ => (execErr d, d)
       | ExecContext _ _ => (execErr d, d)
       | result_RowsAffected => (affected d, d)
       | GetContext_Supplier _ _ _ => (got d, d)
       | GetContext_int64 _ _ _ => (counted d, d)
       | SelectContext _ _ _ => (selected d, d)
       end |}.

Definition acme : Supplier :=
  {| SupplierID := 42%N; Name := "Acme"; Email := "sales@acme.test";
     Tel := "02-000-0000"; Address := "Bangkok" |}.

(** Everything succeeds: one row, one affected row, one supplier. *)
Definition healthy : Canned :=
  {| newID := 42%N;
     queryErr := None;
     hasRow := true;
     scanned := (acme, None);
     execErr := None;
     affected := (1%Z, None);
     got := (acme, None);
     counted := (1%Z, None);
     selected := (mk_slice [acme], None) |}.

(** The statement hits the unique index on the email. *)
Definition duplicate : Canned :=
  {| newID := 42%N;
     queryErr := Some (errors_New
       "pq: duplicate key value violates unique constraint supplier_email_key");
     hasRow := false;
     scanned := (emptySupplier, None);
     execErr := Some (errors_New
       "pq: duplicate key value violates unique constraint supplier_email_key");
     affected := (0%Z, None);
     got := (emptySupplier, Some sql_ErrNoRows);
     counted := (0%Z, None);
     selected := (nil_slice, None) |}.

(** Nothing matches: no row, no affected row, [sql.ErrNoRows]. *)
Definition missing : Canned :=
  {| newID := 42%N;
     queryErr := None;
     hasRow := false;
     scanned := (emptySupplier, None);
     execErr := None;
     affected := (0%Z, None);
     got := (emptySupplier, Some sql_ErrNoRows);
     counted := (0%Z, None);
     selected := (nil_slice, None) |}.

(** The connection is gone. *)
Definition down : Canned :=
  {| newID := 42%N;
     queryErr := Some (errors_New "dial tcp: connection refused");
     hasRow := false;
     scanned := (emptySupplier, None);
     execErr := Some (errors_New "dial tcp: connection refused");
     affected := (0%Z, Some (errors_New "dial tcp: connection refused"));
     got := (emptySupplier, Some (errors_New "dial tcp: connection refused"));
     counted := (0%Z, Some (errors_New "dial tcp: connection refused"));
     selected := (nil_slice, Some (errors_New "dial tcp: connection refused")) |}.

(** Reading a trace of the repository. *)
Definition isClose (ev : Event) : bool :=
  match call ev with
  | rows_Close => true
  | _ => false
  end.

Definition touchesRows (ev : Event) : bool :=
  match call ev with
  | rows_Next | rows_StructScan _ | rows_Close => true
  | _ => false
  end.

(** A statement that went through: [NamedQueryContext] without error. *)
Definition queried (ev : Event) : bool :=
  match ev with
  | Build_Event c r =>
      match c return Resp c -> bool with
      | NamedQueryContext _ _ =>
          fun r => match r with None => true | Some _ => false end
      | _ => fun _ => false
      end r
  end.

Definition isStatement (ev : Event) : bool :=
  match call ev with
  | NamedQueryContext _ _ | NamedExecContext _ _ | ExecContext _ _
  | GetContext_Supplier _ _ _ | GetContext_int64 _ _ _
  | SelectContext _ _ _ => true
  | _ => false
  end.

End postgres.

(* ================================================================== *)
(** * Facts about the number model *)

(** The library's documented behaviour of [math.Round]. *)
Example Round_half_up : F64.Round (F64.dec 105 1) = F64.of_Z 11.
Proof. vm_compute. reflexivity. Qed.

Example Round_half_down : F64.Round (F64.dec (-105) 1) = F64.of_Z (-11).
Proof. vm_compute. reflexivity. Qed.

Example Round_below_half : F64.Round (F64.dec 24999 4) = F64.of_Z 2.
Proof. vm_compute. reflexivity. Qed.

Example Round_small_negative : F64.Round (F64.dec (-3) 1) = S754_zero true.
Proof. vm_compute. reflexivity. Qed.

Example Round_special :
  F64.Round (S754_infinity false) = S754_infinity false
  /\ F64.Round (S754_infinity true) = S754_infinity true
  /\ F64.Round S754_nan = S754_nan
  /\ F64.Round (S754_zero true) = S754_zero true.
Proof. repeat split. Qed.

Lemma Pow_10_2 : F64.Pow (F64.of_Z 10) 2 = F64.of_Z 100.
Proof. vm_compute. reflexivity. Qed.

Lemma roundFloat_2 (x : float64) : roundFloat x 2 = round2 x.
Proof. unfold roundFloat, round2. rewrite Pow_10_2. reflexivity. Qed.

Lemma round2_zero (s : bool) : round2 (S754_zero s) = S754_zero s.
Proof. destruct s; vm_compute; reflexivity. Qed.

Lemma zero_percent : (F64.zero / F64.of_Z 100)%f64 = F64.zero.
Proof. vm_compute. reflexivity. Qed.

(** Multiplying a finite number by [+0] gives a zero of its sign. *)
Lemma mul_zero_finite (x : float64) :
  F64.is_finite x = true ->
  (x * F64.zero)%f64 = S754_zero (match x with
                                  | S754_zero s | S754_finite s _ _ => s
                                  | _ => false
                                  end).
Proof.
  destruct x as [s | s | | s m e]; simpl; intros H; try discriminate;
    destruct s; reflexivity.
Qed.

(** Adding that zero back leaves a finite number as it is. *)
Lemma add_own_zero (x : float64) :
  F64.is_finite x = true ->
  (x + x * F64.zero)%f64 = x.
Proof.
  destruct x as [s | s | | s m e]; simpl; intros H; try discriminate;
    destruct s; reflexivity.
Qed.

Lemma eqb_zero (s : bool) : (S754_zero s == F64.zero)%f64 = true.
Proof. destruct s; reflexivity. Qed.

(* ================================================================== *)
(** * The two loops, as folds *)

Section Loops.

Lemma jobsStep_material acc job :
  totalMaterialCost (jobsStep acc job)
  = if pricedJob job
    then (totalMaterialCost acc + totalEst job)%f64
    else totalMaterialCost acc.
Proof. reflexivity. Qed.

Lemma costsStep_total acc cost :
  totalGeneralCost (costsStep acc cost)
  = if pricedCost cost
    then (totalGeneralCost acc + estCost cost)%f64
    else totalGeneralCost acc.
Proof.
  unfold costsStep, pricedCost, estCost.
  destruct (sql.Valid (models.EstimatedCost cost)); reflexivity.
Qed.

Lemma costsStep_rows acc cost :
  accCosts (costsStep acc cost)
  = if pricedCost cost
    then append (accCosts acc) (costDetail cost)
    else accCosts acc.
Proof.
  unfold costsStep, pricedCost.
  destruct (sql.Valid (models.EstimatedCost cost)); reflexivity.
Qed.

Lemma jobs_loop_rows (l : list models.QuotationJob) :
  forall acc r,
    accJobs acc = mk_slice r ->
    accJobs (fold_left jobsStep l acc) = mk_slice (r ++ map jobDetail l).
Proof.
  induction l as [| job l IH]; intros acc r Hr; simpl.
  - now rewrite app_nil_r.
  - rewrite (IH _ (r ++ [jobDetail job])).
    + now rewrite <- app_assoc.
    + simpl. now rewrite Hr.
Qed.

Lemma jobs_loop_labor (l : list models.QuotationJob) :
  forall acc,
    totalLaborCost (fold_left jobsStep l acc)
    = fold_left F64.add (map models.TotalLaborCost l) (totalLaborCost acc).
Proof.
  induction l as [| job l IH]; intros acc; simpl; [reflexivity |].
  now rewrite IH.
Qed.

Lemma jobs_loop_material (l : list models.QuotationJob) :
  forall acc,
    totalMaterialCost (fold_left jobsStep l acc)
    = fold_left F64.add (map totalEst (filter pricedJob l)) (totalMaterialCost acc).
Proof.
  induction l as [| job l IH]; intros acc; [reflexivity |].
  cbn [fold_left filter]. rewrite IH, jobsStep_material.
  destruct (pricedJob job); reflexivity.
Qed.

Lemma costs_loop_rows (l : list models.QuotationGeneralCost) :
  forall acc r,
    accCosts acc = mk_slice r ->
    accCosts (fold_left costsStep l acc)
    = mk_slice (r ++ map costDetail (filter pricedCost l)).
Proof.
  induction l as [| cost l IH]; intros acc r Hr.
  - simpl. now rewrite app_nil_r.
  - cbn [fold_left filter].
    pose proof (costsStep_rows acc cost) as Hstep.
    destruct (pricedCost cost).
    + rewrite (IH _ (r ++ [costDetail cost])).
      * simpl. now rewrite <- app_assoc.
      * rewrite Hstep, Hr. reflexivity.
    + apply IH. now rewrite Hstep.
Qed.

Lemma costs_loop_total (l : list models.QuotationGeneralCost) :
  forall acc,
    totalGeneralCost (fold_left costsStep l acc)
    = fold_left F64.add (map estCost (filter pricedCost l)) (totalGeneralCost acc).
Proof.
  induction l as [| cost l IH]; intros acc; [reflexivity |].
  cbn [fold_left filter]. rewrite IH, costsStep_total.
  destruct (pricedCost cost); reflexivity.
Qed.

End Loops.

Lemma processJobs_rows jobs :
  accJobs (processJobs jobs) = mk_slice (map jobDetail (elems jobs)).
Proof. unfold processJobs. now rewrite (jobs_loop_rows _ _ (r := [])). Qed.

Lemma processJobs_labor jobs :
  totalLaborCost (processJobs jobs)
  = F64.sum (map models.TotalLaborCost (elems jobs)).
Proof. unfold processJobs. now rewrite jobs_loop_labor. Qed.

Lemma processJobs_material jobs :
  totalMaterialCost (processJobs jobs)
  = F64.sum (map totalEst (filter pricedJob (elems jobs))).
Proof. unfold processJobs. now rewrite jobs_loop_material. Qed.

Lemma processCosts_rows costs :
  accCosts (processCosts costs)
  = mk_slice (map costDetail (filter pricedCost (elems costs))).
Proof. unfold processCosts. now rewrite (costs_loop_rows _ _ (r := [])). Qed.

Lemma processCosts_total costs :
  totalGeneralCost (processCosts costs)
  = F64.sum (map estCost (filter pricedCost (elems costs))).
Proof. unfold processCosts. now rewrite costs_loop_total. Qed.

(** Filtering twice changes nothing, so an input stripped of its unpriced
    entries runs through the loops like the original. *)
Lemma filter_idem {A} (f : A -> bool) (l : list A) :
  filter f (filter f l) = filter f l.
Proof.
  induction l as [| a l IH]; simpl; [reflexivity |].
  destruct (f a) eqn:E; simpl; rewrite ?E, IH; reflexivity.
Qed.

(* ================================================================== *)
(** * Properties of the aggregator *)

Lemma rows_match (l : list models.QuotationJob) :
  Forall2 (row_matches models.TotalLaborCost) l (map jobDetail l).
Proof.
  induction l as [| job l IH]; simpl; constructor; auto.
  repeat split.
Qed.

Lemma rows_labor (l : list models.QuotationJob) :
  Forall2 (fun job row => responses.LaborCost row = models.LaborCost job)
    l (map jobDetail l).
Proof. induction l; simpl; constructor; auto. Qed.

(** ** Rows and labour total *)

(** C1 (amended).  Every job gets a row whose material cost is the job's
    estimated price when present and 0.0 otherwise, whose total cost is the
    job's precomputed total when present and the job's TotalLaborCost
    otherwise (the row's own labour column shows the separate LaborCost
    field), and whose selling price is set only when the job's is present;
    the summary's totalLaborCost is the sum of the jobs' TotalLaborCost,
    rounded by [roundFloat _ 2]. *)
Theorem rows_and_labor_total :
  forall quotation jobs costs,
    let r := buildQuotationResponse quotation jobs costs in
    Forall2 (row_matches models.TotalLaborCost) (elems jobs) (elems (responses.Jobs r))
    /\ Forall2 (fun job row => responses.LaborCost row = models.LaborCost job)
         (elems jobs) (elems (responses.Jobs r))
    /\ responses.TotalLaborCost (responses.Summary r)
       = roundFloat (F64.sum (map models.TotalLaborCost (elems jobs))) 2.
Proof.
  intros quotation jobs costs; cbn zeta.
  unfold buildQuotationResponse; cbn [responses.Jobs responses.Summary responses.TotalLaborCost].
  rewrite processJobs_rows, processJobs_labor. cbn [elems].
  split; [apply rows_match | split; [apply rows_labor | reflexivity]].
Qed.

(** C1, as stated, fails on one job with LaborCost 16.668, TotalLaborCost
    50.004 and no precomputed total: its row's total cost is 50.004, and
    the summary's totalLaborCost is 50, which is neither the sum of the
    LaborCost fields nor the unrounded sum of the TotalLaborCost fields. *)
Lemma rows_and_labor_counterexample :
  ~ rows_and_labor_as_stated models.LaborCost
      plainQuotation (mk_slice [unpricedJob]) nil_slice
  /\ ~ rows_and_labor_as_stated models.TotalLaborCost
      plainQuotation (mk_slice [unpricedJob]) nil_slice.
Proof.
  split; intros [_ Hsum]; vm_compute in Hsum; discriminate Hsum.
Qed.

Example unpricedJob_row :
  let r := buildQuotationResponse plainQuotation (mk_slice [unpricedJob]) nil_slice in
  map responses.TotalCost (elems (responses.Jobs r)) = [F64.dec 50004 3]
  /\ map responses.LaborCost (elems (responses.Jobs r)) = [F64.dec 16668 3]
  /\ responses.TotalLaborCost (responses.Summary r) = F64.of_Z 50.
Proof. vm_compute. repeat split. Qed.

(** ** Absent prices *)

(** C2.  Jobs without a total estimated price add nothing to the material
    total: the accumulator is the sum over the priced jobs only, whatever
    number an absent column carries, so the summary is that of the input
    with those jobs' prices left out.  General costs without an estimated
    cost produce no output row and add nothing to the general total. *)
Theorem absent_prices_skipped :
  forall quotation jobs costs,
    let r := buildQuotationResponse quotation jobs costs in
    totalMaterialCost (processJobs jobs)
      = F64.sum (map totalEst (filter pricedJob (elems jobs)))
    /\ responses.TotalMaterialCost (responses.Summary r)
      = responses.TotalMaterialCost (responses.Summary
          (buildQuotationResponse quotation
             (mk_slice (filter pricedJob (elems jobs))) costs))
    /\ elems (responses.Costs r) = map costDetail (filter pricedCost (elems costs))
    /\ (forall row, In row (elems (responses.Costs r)) ->
          exists cost, In cost (elems costs)
                       /\ sql.Valid (models.EstimatedCost cost) = true
                       /\ row = costDetail cost)
    /\ totalGeneralCost (processCosts costs)
      = F64.sum (map estCost (filter pricedCost (elems costs)))
    /\ responses.TotalGeneralCost (responses.Summary r)
      = responses.TotalGeneralCost (responses.Summary
          (buildQuotationResponse quotation jobs
             (mk_slice (filter pricedCost (elems costs))))).
Proof.
  intros quotation jobs costs; cbn zeta.
  unfold buildQuotationResponse;
    cbn [responses.Costs responses.Summary responses.TotalMaterialCost
         responses.TotalGeneralCost].
  rewrite !processJobs_material, !processCosts_total, !processCosts_rows.
  cbn [elems]. rewrite !filter_idem.
  repeat split.
  intros row Hrow. apply in_map_iff in Hrow as (cost & <- & Hin).
  apply filter_In in Hin as [Hin Hvalid].
  exists cost. repeat split; assumption.
Qed.

(** Taking one unpriced job out of the list leaves the material total as
    it was. *)
Lemma unpriced_job_removable quotation before job after costs :
  pricedJob job = false ->
  responses.TotalMaterialCost (responses.Summary
    (buildQuotationResponse quotation (mk_slice (before ++ job :: after)) costs))
  = responses.TotalMaterialCost (responses.Summary
    (buildQuotationResponse quotation (mk_slice (before ++ after)) costs)).
Proof.
  intros Hjob. unfold buildQuotationResponse;
    cbn [responses.Summary responses.TotalMaterialCost].
  rewrite !processJobs_material. cbn [elems].
  rewrite !filter_app. cbn [filter]. now rewrite Hjob.
Qed.

(** ** Subtotal, tax and total *)

Lemma absent_tax_finite (quotation : models.Quotation) (labor material general : float64) :
  sql.Valid (models.TaxPercentage quotation) = false ->
  let t := calculate quotation labor material general in
  F64.is_finite (subtotal t) = true ->
  (tax t == F64.zero)%f64 = true /\ total t = subtotal t.
Proof.
  intros Hq t Hfin. subst t. revert Hfin.
  unfold calculate; cbn [subtotal tax total]. rewrite Hq, zero_percent.
  intros Hfin. rewrite add_own_zero by assumption.
  rewrite mul_zero_finite by assumption. split; [apply eqb_zero | reflexivity].
Qed.

Lemma absent_tax_not_finite (quotation : models.Quotation) (labor material general : float64) :
  sql.Valid (models.TaxPercentage quotation) = false ->
  let t := calculate quotation labor material general in
  F64.is_finite (subtotal t) = false ->
  F64.is_nan (tax t) = true /\ F64.is_nan (total t) = true.
Proof.
  intros Hq t. subst t.
  unfold calculate; cbn [subtotal tax total]. rewrite Hq, zero_percent.
  destruct (labor + material + general)%f64 as [s | s | | s m e]; simpl;
    intros Hfin; try discriminate; split; reflexivity.
Qed.

Lemma absent_tax_rounded (quotation : models.Quotation) (labor material general : float64) :
  sql.Valid (models.TaxPercentage quotation) = false ->
  let t := calculate quotation labor material general in
  F64.is_finite (subtotal t) = true ->
  (roundFloat (tax t) 2 == F64.zero)%f64 = true
  /\ roundFloat (total t) 2 = roundFloat (subtotal t) 2.
Proof.
  intros Hq t Hfin.
  destruct (absent_tax_finite quotation labor material general Hq Hfin)
    as [Htax Htot].
  fold t in Htax, Htot. rewrite Htot. split; [| reflexivity].
  rewrite roundFloat_2.
  destruct (tax t) as [s | s | | s m e];
    try (destruct s; discriminate Htax); try discriminate Htax.
  rewrite round2_zero. apply eqb_zero.
Qed.

(** C3 (amended).  The aggregator computes
    subtotal = totalLaborCost + totalMaterialCost + totalGeneralCost,
    tax = subtotal * (taxPercentage / 100) with taxPercentage the
    quotation's when present and 0 otherwise, and total = subtotal + tax,
    and reports each through [roundFloat _ 2].  When the tax percentage is
    absent and the subtotal is a finite number, tax == 0 and the total is
    the subtotal, in the locals and in the summary; when the subtotal is
    infinite or NaN, tax and total are NaN instead. *)
Theorem summary_arithmetic :
  forall quotation jobs costs,
    let js := processJobs jobs in
    let cs := processCosts costs in
    let t := rawTotals quotation jobs costs in
    let r := buildQuotationResponse quotation jobs costs in
    subtotal t = (totalLaborCost js + totalMaterialCost js + totalGeneralCost cs)%f64
    /\ taxPercentage t
       = (if sql.Valid (models.TaxPercentage quotation)
          then sql.Float64 (models.TaxPercentage quotation) else F64.zero)
    /\ tax t = (subtotal t * (taxPercentage t / F64.of_Z 100))%f64
    /\ total t = (subtotal t + tax t)%f64
    /\ responses.SubTotal (responses.Summary r) = roundFloat (subtotal t) 2
    /\ responses.Tax (responses.Summary r) = roundFloat (tax t) 2
    /\ responses.Total (responses.Summary r) = roundFloat (total t) 2
    /\ (sql.Valid (models.TaxPercentage quotation) = false ->
        F64.is_finite (subtotal t) = true ->
        (tax t == F64.zero)%f64 = true
        /\ total t = subtotal t
        /\ (responses.Tax (responses.Summary r) == F64.zero)%f64 = true
        /\ responses.Total (responses.Summary r)
           = responses.SubTotal (responses.Summary r))
    /\ (sql.Valid (models.TaxPercentage quotation) = false ->
        F64.is_finite (subtotal t) = false ->
        F64.is_nan (tax t) = true /\ F64.is_nan (total t) = true).
Proof.
  intros quotation jobs costs js cs t r.
  do 7 (split; [reflexivity |]).
  split; [| apply absent_tax_not_finite].
  intros Hq Hfin.
  destruct (absent_tax_finite quotation (totalLaborCost js)
              (totalMaterialCost js) (totalGeneralCost cs) Hq Hfin) as [Htax Htot].
  destruct (absent_tax_rounded quotation (totalLaborCost js)
              (totalMaterialCost js) (totalGeneralCost cs) Hq Hfin) as [Htax' Htot'].
  repeat split; assumption.
Qed.

(** C3, as stated, fails on two jobs of total labour cost 10^308 each and
    no tax percentage: both costs are well-formed numbers, their sum
    overflows to +Inf, the tax [Inf * 0] is NaN and so is the total. *)
Lemma absent_tax_counterexample :
  F64.valid (models.TotalLaborCost hugeJob) = true
  /\ F64.is_finite (models.TotalLaborCost hugeJob) = true
  /\ ~ absent_tax_as_stated plainQuotation (mk_slice [hugeJob; hugeJob]) nil_slice.
Proof.
  split; [vm_compute; reflexivity |]. split; [vm_compute; reflexivity |].
  intros H. destruct (H eq_refl) as [Htax _].
  vm_compute in Htax. discriminate Htax.
Qed.

Example overflow_summary :
  let r := buildQuotationResponse plainQuotation (mk_slice [hugeJob; hugeJob]) nil_slice in
  responses.SubTotal (responses.Summary r) = S754_infinity false
  /\ responses.Tax (responses.Summary r) = S754_nan
  /\ responses.Total (responses.Summary r) = S754_nan.
Proof. vm_compute. repeat split. Qed.

(** ** Rounding at the output boundary *)


(** The example of the specification: 10.005 is stored as a number a
    little above 1000.5 hundredths, and comes out as 10.01. *)
Example roundFloat_10_005 : roundFloat (F64.dec 10005 3) 2 = F64.dec 1001 2.
Proof. vm_compute. reflexivity. Qed.

(** ** The end-to-end example *)

(** C9.  Jobs {labor 100, material 50, total 150} and {labor 200, material
    and total absent}, general costs {30} and {absent}, tax percentage 7:
    the summary is 300, 50, 30, 380, 26.6 and 406.6 (each the nearest
    binary64 number), whatever the columns that do not enter the summary
    hold. *)
Theorem end_to_end_example :
  forall id status date n1 u1 q1 l1 p1 s1 n2 u2 q2 l2 p2 s2 c1 c2,
    let quotation :=
      {| models.QuotationID := id; models.Status := status;
         models.ValidDate := date;
         models.TaxPercentage := present (F64.of_Z 7) |} in
    let jobs := mk_slice
      [ exampleJob n1 u1 q1 l1 p1 s1
          (F64.of_Z 100) (present (F64.of_Z 50)) (present (F64.of_Z 150));
        exampleJob n2 u2 q2 l2 p2 s2 (F64.of_Z 200) absent absent ] in
    let costs := mk_slice
      [ exampleCost c1 (present (F64.of_Z 30)); exampleCost c2 absent ] in
    responses.Summary (buildQuotationResponse quotation jobs costs)
    = {| responses.TotalLaborCost := F64.of_Z 300;
         responses.TotalMaterialCost := F64.of_Z 50;
         responses.TotalGeneralCost := F64.of_Z 30;
         responses.SubTotal := F64.of_Z 380;
         responses.Tax := F64.dec 266 1;
         responses.Total := F64.dec 4066 1 |}.
Proof. intros. vm_compute. reflexivity. Qed.

(** ** The two lists and the validity date *)

(** C10.  The Jobs list has one row per input job, in input order; the
    Costs list has one row per general cost with a present estimated cost,
    in input order; neither list is ever nil, and each is the empty list
    when there is nothing to show; a quotation without validity date is
    reported with the zero time. *)
Theorem lists_and_valid_date :
  forall quotation jobs costs,
    let r := buildQuotationResponse quotation jobs costs in
    responses.Jobs r = mk_slice (map jobDetail (elems jobs))
    /\ List.length (elems (responses.Jobs r)) = List.length (elems jobs)
    /\ responses.Costs r = mk_slice (map costDetail (filter pricedCost (elems costs)))
    /\ is_nil (responses.Jobs r) = false
    /\ is_nil (responses.Costs r) = false
    /\ (elems jobs = [] -> responses.Jobs r = make0)
    /\ (filter pricedCost (elems costs) = [] -> responses.Costs r = make0)
    /\ (sql.TimeValid (models.ValidDate quotation) = false ->
        responses.ValidDate r = time.zero).
Proof.
  intros quotation jobs costs; cbn zeta.
  unfold buildQuotationResponse;
    cbn [responses.Jobs responses.Costs responses.ValidDate].
  rewrite processJobs_rows, processCosts_rows. cbn [elems is_nil].
  rewrite length_map.
  repeat split.
  - intros ->. reflexivity.
  - intros ->. reflexivity.
  - intros Hdate. unfold getValidTime. now rewrite Hdate.
Qed.

Lemma absent_prices_skipped_witness :
  let costs := mk_slice [exampleCost "transport" (present (F64.of_Z 30));
                         exampleCost "permits" absent] in
  let r := buildQuotationResponse plainQuotation (mk_slice [unpricedJob]) costs in
  elems (responses.Costs r)
    = [costDetail (exampleCost "transport" (present (F64.of_Z 30)))]
  /\ exists cost,
       In cost (elems costs)
       /\ sql.Valid (models.EstimatedCost cost) = true
       /\ costDetail (exampleCost "transport" (present (F64.of_Z 30))) = costDetail cost.
Proof.
  intros costs r.
  destruct (absent_prices_skipped plainQuotation (mk_slice [unpricedJob]) costs)
    as (_ & _ & Hrows & Hin & _).
  split; [exact Hrows |].
  apply Hin. vm_compute. left. reflexivity.
Defined.

Lemma summary_arithmetic_witness :
  let t := rawTotals plainQuotation (mk_slice [unpricedJob]) nil_slice in
  let r := buildQuotationResponse plainQuotation (mk_slice [unpricedJob]) nil_slice in
  sql.Valid (models.TaxPercentage plainQuotation) = false
  /\ F64.is_finite (subtotal t) = true
  /\ (tax t == F64.zero)%f64 = true
  /\ total t = subtotal t
  /\ (responses.Tax (responses.Summary r) == F64.zero)%f64 = true
  /\ responses.Total (responses.Summary r) = responses.SubTotal (responses.Summary r).
Proof.
  intros t r.
  destruct (summary_arithmetic plainQuotation (mk_slice [unpricedJob]) nil_slice)
    as (_ & _ & _ & _ & _ & _ & _ & Habsent & _).
  assert (Hfin : F64.is_finite (subtotal t) = true) by (vm_compute; reflexivity).
  split; [reflexivity |]. split; [exact Hfin |].
  exact (Habsent eq_refl Hfin).
Defined.

Lemma lists_and_valid_date_witness :
  let r := buildQuotationResponse plainQuotation nil_slice
             (mk_slice [exampleCost "permits" absent]) in
  responses.Jobs r = make0
  /\ responses.Costs r = make0
  /\ responses.ValidDate r = time.zero.
Proof.
  intros r.
  destruct (lists_and_valid_date plainQuotation nil_slice
              (mk_slice [exampleCost "permits" absent]))
    as (_ & _ & _ & _ & _ & Hjobs & Hcosts & Hdate).
  split; [apply Hjobs; reflexivity |].
  split; [apply Hcosts; reflexivity | apply Hdate; reflexivity].
Defined.

(* ================================================================== *)
(** * Properties of the use case *)

(** Case analysis on every repository answer and every test along a run. *)
Ltac settle :=
  cbn [run usecase.buildThrough outcome store trace call resp
       existsb filter map calls isCreate created lookupMissed
       List.length app fst snd negb orb andb] in *.

Ltac crank :=
  repeat (settle;
          match goal with
          | |- context [match ?x with _ => _ end] => is_var x; destruct x
          | |- context [usecase.buildThrough ?q _ _ _] => is_var q; destruct q
          | |- context [match respond ?r ?c ?s with _ => _ end] =>
              destruct (respond r c s) eqn:?
          | |- context [negb (?a =? ?b)%string] =>
              destruct (negb (a =? b)%string) eqn:?
          end);
  settle.

Ltac approved :=
  repeat match goal with
         | H : negb (?a =? ?b)%string = false |- _ =>
             apply negb_false_iff in H; apply String.eqb_eq in H; subst a
         end.

Lemma neq_approved (status : string) :
  status <> "approved"%string -> negb (status =? "approved")%string = true.
Proof. intros H. apply negb_true_iff. now apply String.eqb_neq. Qed.

(** ** The BOQ gate of [CreateOrGetQuotation] *)

(** C5.  When the repository reports a BOQ status other than "approved",
    CreateOrGetQuotation returns no response and the error "BOQ must be
    approved before creating quotation", and the status check is the only
    repository call it makes: neither the lookup nor Create is reached. *)
Theorem create_needs_approved_boq :
  forall (S : Type) (repo : QuotationRepository S) projectID s status s1,
    respond repo (CheckBOQStatus projectID) s = ((status, None), s1) ->
    status <> "approved"%string ->
    run repo (usecase.CreateOrGetQuotation projectID) s
    = {| outcome :=
           Returned (None, Some (errors_New "BOQ must be approved before creating quotation"));
         store := s1;
         trace := [{| call := CheckBOQStatus projectID; resp := (status, None) |}] |}
    /\ String.prefix "BOQ must be approved"
         "BOQ must be approved before creating quotation" = true.
Proof.
  intros S repo projectID s status s1 Hboq Hstatus.
  split; [| reflexivity].
  unfold usecase.CreateOrGetQuotation. cbn [run]. rewrite Hboq.
  rewrite (neq_approved Hstatus). reflexivity.
Qed.

Lemma create_needs_approved_boq_witness :
  run memory.repo (usecase.CreateOrGetQuotation 7%N) (memory.project7 "draft")
  = {| outcome :=
         Returned (None, Some (errors_New "BOQ must be approved before creating quotation"));
       store := memory.project7 "draft";
       trace := [{| call := CheckBOQStatus 7%N; resp := ("draft"%string, None) |}] |}.
Proof.
  apply (@create_needs_approved_boq memory.Store memory.repo 7%N
           (memory.project7 "draft") "draft" (memory.project7 "draft")).
  - reflexivity.
  - discriminate.
Defined.

(** ** Create-if-absent *)

Lemma create_calls_of_run (S : Type) (repo : QuotationRepository S) projectID s :
  let tr := trace (run repo (usecase.CreateOrGetQuotation projectID) s) in
  calls (filter isCreate tr)
  = if existsb lookupMissed tr then [Create projectID] else [].
Proof.
  unfold usecase.CreateOrGetQuotation. crank; reflexivity.
Qed.

Section Idempotence.
Context {S : Type} (repo : QuotationRepository S) (projectID : UUID).
Context (has : S -> Prop) (Hrepo : keeps_quotation repo projectID has).

Lemma kept_along_run {R} (p : Prog R) :
  forall s, has s -> has (store (run repo p s)).
Proof.
  induction p as [r | | c k IH]; intros s Hs; cbn [run store]; auto.
  pose proof (calls_preserve Hrepo c s Hs) as Hnext.
  destruct (respond repo c s) as [r s']. cbn [store]. apply IH. exact Hnext.
Qed.

Lemma created_then_kept (s : S) :
  let r := run repo (usecase.CreateOrGetQuotation projectID) s in
  existsb created (trace r) = true -> has (store r).
Proof.
  unfold usecase.CreateOrGetQuotation. crank; try discriminate; intros _;
    match goal with
    | H : respond repo (Create projectID) _ = (_, None, ?s') |- _ =>
        pose proof (create_persists Hrepo _ H) as Hs'
    end;
    repeat match goal with
    | H : respond repo ?c ?s = (_, ?s') |- _ =>
        match goal with
        | Hs : has s |- _ =>
            lazymatch goal with
            | _ : has s' |- _ => fail
            | _ => let Hn := fresh "Hs" in
                   pose proof (calls_preserve Hrepo c s Hs) as Hn;
                   rewrite H in Hn; cbn [snd] in Hn
            end
        end
    end; assumption.
Qed.

Lemma no_create_when_kept (s : S) :
  has s ->
  existsb isCreate (trace (run repo (usecase.CreateOrGetQuotation projectID) s)) = false.
Proof.
  intros Hs. unfold usecase.CreateOrGetQuotation. crank; try reflexivity;
    exfalso;
    match goal with
    | Hboq : respond repo (CheckBOQStatus projectID) s = (_, ?s1),
      Hget : respond repo (GetByProjectID projectID) ?s1 = _ |- _ =>
        pose proof (calls_preserve Hrepo (CheckBOQStatus projectID) s Hs) as Hs1;
        rewrite Hboq in Hs1; cbn [snd] in Hs1;
        apply (lookup_finds Hrepo _ Hs1); rewrite Hget; reflexivity
    end.
Qed.

End Idempotence.

Lemma created_isCreate (ev : Event) : created ev = true -> isCreate ev = true.
Proof. destruct ev as [[] r]; cbn; auto. Qed.

Lemma created_le_isCreate (tr : list Event) :
  List.length (filter created tr) <= List.length (filter isCreate tr).
Proof.
  induction tr as [| ev tr IH]; cbn [filter]; [lia |].
  destruct (created ev) eqn:E.
  - rewrite (created_isCreate ev E). cbn [List.length]. lia.
  - destruct (isCreate ev); cbn [List.length]; lia.
Qed.

Lemma filter_none {A} (f : A -> bool) (l : list A) :
  existsb f l = false -> filter f l = [].
Proof.
  induction l as [| a l IH]; cbn; [reflexivity |].
  destruct (f a); cbn; [discriminate | exact IH].
Qed.

Lemma at_most_one_create (S : Type) (repo : QuotationRepository S) projectID s :
  List.length (filter isCreate
    (trace (run repo (usecase.CreateOrGetQuotation projectID) s))) <= 1.
Proof.
  rewrite <- (length_map call). fold (calls (filter isCreate
    (trace (run repo (usecase.CreateOrGetQuotation projectID) s)))).
  rewrite create_calls_of_run.
  destruct (existsb lookupMissed _); cbn; lia.
Qed.

(** C6.  Within one invocation, Create is called exactly when the lookup
    answered nil without error, once and for the project at hand.  Over
    two invocations in sequence on a repository that keeps its quotations,
    a Create that succeeded in the first makes the second find the
    quotation and call Create no more, so at most one quotation is created
    in all. *)
Theorem create_only_when_missing :
  forall (S : Type) (repo : QuotationRepository S) projectID s,
    let r1 := run repo (usecase.CreateOrGetQuotation projectID) s in
    let r2 := run repo (usecase.CreateOrGetQuotation projectID) (store r1) in
    calls (filter isCreate (trace r1))
      = (if existsb lookupMissed (trace r1) then [Create projectID] else [])
    /\ (forall has : S -> Prop,
          keeps_quotation repo projectID has ->
          (existsb created (trace r1) = true ->
           existsb isCreate (trace r2) = false)
          /\ List.length (filter created (trace r1 ++ trace r2)) <= 1).
Proof.
  intros S repo projectID s r1 r2.
  split; [apply create_calls_of_run |].
  intros has Hrepo.
  assert (Hsecond : existsb created (trace r1) = true ->
                    existsb isCreate (trace r2) = false).
  { intros Hc. apply (no_create_when_kept Hrepo).
    apply (created_then_kept Hrepo). exact Hc. }
  split; [exact Hsecond |].
  rewrite filter_app, length_app.
  pose proof (created_le_isCreate (trace r1)) as H1.
  pose proof (created_le_isCreate (trace r2)) as H2.
  pose proof (at_most_one_create repo projectID s) as L1.
  pose proof (at_most_one_create repo projectID (store r1)) as L2.
  fold r1 in L1. fold r2 in L2.
  destruct (existsb created (trace r1)) eqn:E.
  - rewrite (filter_none _ _ (Hsecond eq_refl)) in H2. cbn [List.length] in H2. lia.
  - rewrite (filter_none _ _ E). cbn [List.length]. lia.
Qed.

(** The in-memory repository keeps its quotations. *)
Lemma lookup_app {A} (p : UUID) (t l : list (UUID * A)) :
  memory.lookup p (t ++ l)
  = match memory.lookup p t with
    | Some x => Some x
    | None => memory.lookup p l
    end.
Proof.
  unfold memory.lookup, UUID in *.
  induction t as [| row t IH]; cbn [app find].
  - reflexivity.
  - destruct (N.eqb (fst row) p); [reflexivity | exact IH].
Qed.

Lemma lookup_map_keys {A} (p : UUID) (f : UUID * A -> UUID * A) (t : list (UUID * A)) :
  (forall row, fst (f row) = fst row) ->
  memory.lookup p t <> None -> memory.lookup p (map f t) <> None.
Proof.
  intros Hf. unfold memory.lookup, UUID in *.
  induction t as [| row t IH]; cbn [map find]; [auto |].
  rewrite Hf.
  destruct (N.eqb (fst row) p); [intros _; cbn; discriminate | exact IH].
Qed.

Lemma memory_keeps (projectID : UUID) :
  keeps_quotation memory.repo projectID (holds projectID).
Proof.
  constructor.
  - intros s q s' H. cbn in H. injection H as _ <-.
    unfold holds. cbn. rewrite lookup_app.
    destruct (memory.lookup projectID (memory.quotations s)); [discriminate |].
    unfold memory.lookup. cbn. rewrite N.eqb_refl. discriminate.
  - intros c s Hs. unfold holds in *.
    destruct c as [p | p | p | p | p | p | p | p | p]; cbn;
      repeat match goal with
             | |- context [match ?x with _ => _ end] => destruct x
             end; cbn; try exact Hs.
    + rewrite lookup_app.
      destruct (memory.lookup projectID (memory.quotations s)); [discriminate | tauto].
    + apply lookup_map_keys; [| exact Hs].
      intros row.
      match goal with |- context [if ?b then _ else _] => destruct b end;
        reflexivity.
  - intros s Hs H. cbn in H. injection H as H. exact (Hs H).
Qed.

Lemma create_only_when_missing_witness :
  let s := memory.project7 "approved" in
  let r1 := run memory.repo (usecase.CreateOrGetQuotation 7%N) s in
  let r2 := run memory.repo (usecase.CreateOrGetQuotation 7%N) (store r1) in
  keeps_quotation memory.repo 7%N (holds 7%N)
  /\ calls (filter isCreate (trace r1)) = [Create 7%N]
  /\ existsb isCreate (trace r2) = false
  /\ List.length (filter created (trace r1 ++ trace r2)) <= 1
  /\ List.length (memory.quotations (store r2)) = 1.
Proof.
  intros s r1 r2.
  destruct (@create_only_when_missing memory.Store memory.repo 7%N s)
    as [Hcalls Htwice].
  destruct (Htwice (holds 7%N) (memory_keeps 7%N)) as [Hsecond Hcount].
  split; [apply memory_keeps |].
  split; [exact Hcalls |].
  split; [apply Hsecond; vm_compute; reflexivity |].
  split; [exact Hcount | vm_compute; reflexivity].
Defined.

(** ** The two gates of [ExportQuotation] *)

(** C7.  ExportQuotation asks for the BOQ status, then the quotation
    status, then the export data, and nothing else: only queries, so a
    repository whose queries leave the store alone gets its store back
    unchanged.  It returns export data only after both statuses came back
    "approved"; when the BOQ is approved and the quotation is not, it
    returns an error without asking for the export data. *)
Theorem export_gated :
  forall (S : Type) (repo : QuotationRepository S) projectID s,
    let r := run repo (usecase.ExportQuotation projectID) s in
    is_prefix (calls (trace r))
      [CheckBOQStatus projectID; GetQuotationStatus projectID; GetExportData projectID]
    /\ forallb is_query (calls (trace r)) = true
    /\ ((forall c s0, is_query c = true -> snd (respond repo c s0) = s0) ->
        store r = s)
    /\ (forall data,
          outcome r = Returned (data, None) ->
          trace r
          = [ {| call := CheckBOQStatus projectID; resp := ("approved"%string, None) |};
              {| call := GetQuotationStatus projectID; resp := ("approved"%string, None) |};
              {| call := GetExportData projectID; resp := (data, None) |} ])
    /\ (forall status e s1 s2,
          respond repo (CheckBOQStatus projectID) s = (("approved"%string, None), s1) ->
          respond repo (GetQuotationStatus projectID) s1 = ((status, e), s2) ->
          status <> "approved"%string ->
          outcome r
          = Returned (None, Some match e with
                                 | Some e' => e'
                                 | None => errors_New "only approved quotations can be exported"
                                 end)
          /\ calls (trace r) = [CheckBOQStatus projectID; GetQuotationStatus projectID]).
Proof.
  intros S repo projectID s r. subst r.
  split; [| split; [| split; [| split]]].
  - unfold usecase.ExportQuotation, is_prefix. crank; eexists; reflexivity.
  - unfold usecase.ExportQuotation. crank; reflexivity.
  - intros Hq. unfold usecase.ExportQuotation. crank;
      repeat match goal with
             | H : respond repo ?c ?s0 = (_, ?s') |- _ =>
                 let Hs := fresh "Hs" in
                 pose proof (Hq c s0 eq_refl) as Hs;
                 rewrite H in Hs; cbn [snd] in Hs; subst s'; clear H
             end; reflexivity.
  - intros data. unfold usecase.ExportQuotation. crank; intros H;
      try discriminate H; approved.
    injection H as ->. reflexivity.
  - intros status e s1 s2 Hboq Hq Hstatus.
    unfold usecase.ExportQuotation. cbn [run]. rewrite Hboq.
    cbn [negb String.eqb Ascii.eqb Bool.eqb run]. rewrite Hq.
    destruct e as [e' |]; cbn [run outcome trace calls map call]; [auto |].
    rewrite (neq_approved Hstatus). cbn [run outcome trace calls map call]. auto.
Qed.

(** The in-memory repository answers queries without touching the
    store. *)
Lemma memory_queries_pure (c : Call) (s : memory.Store) :
  is_query c = true -> snd (respond memory.repo c s) = s.
Proof.
  destruct c; cbn; intros H; try discriminate H;
    repeat match goal with
           | |- context [match ?x with _ => _ end] => destruct x
           end; reflexivity.
Qed.

Lemma export_gated_witness :
  let r := run memory.repo (usecase.ExportQuotation 7%N) (quoted7 "draft") in
  store r = quoted7 "draft"
  /\ outcome r
     = Returned (None, Some (errors_New "only approved quotations can be exported"))
  /\ calls (trace r) = [CheckBOQStatus 7%N; GetQuotationStatus 7%N].
Proof.
  intros r.
  destruct (@export_gated memory.Store memory.repo 7%N (quoted7 "draft"))
    as (_ & _ & Hstore & _ & Hdraft).
  split; [apply Hstore; intros c s0; apply memory_queries_pure |].
  apply (Hdraft "draft"%string None (quoted7 "draft") (quoted7 "draft"));
    [reflexivity | reflexivity | discriminate].
Defined.

Example export_when_both_approved :
  exists data,
    outcome (run memory.repo (usecase.ExportQuotation 7%N) (quoted7 "approved"))
    = Returned (Some data, None).
Proof. eexists. vm_compute. reflexivity. Qed.

(** ** [ApproveQuotation] *)

(** C8.  A failure of ValidateApproval is returned as it is, and then
    nothing else is called, so no approval is written.  After a successful
    validation the second call is the approval write; whatever follows it
    is a query (nothing undoes the write), in the order lookup, jobs,
    costs.  The operation returns nil exactly when all five calls
    succeeded and the quotation was found, and it returns no response in
    any case; a failure of one of the three fetches is returned wrapped in
    its context. *)
Theorem approve_behaviour :
  forall (S : Type) (repo : QuotationRepository S) projectID s,
    let r := run repo (usecase.ApproveQuotation projectID) s in
    (forall e s1,
        respond repo (ValidateApproval projectID) s = (Some e, s1) ->
        outcome r = Returned (Some e)
        /\ store r = s1
        /\ calls (trace r) = [ValidateApproval projectID])
    /\ is_prefix (calls (trace r))
         [ValidateApproval projectID; repositories.ApproveQuotation projectID;
          GetByProjectID projectID; GetQuotationJobs projectID;
          GetQuotationGeneralCosts projectID]
    /\ (forall s1,
          respond repo (ValidateApproval projectID) s = (None, s1) ->
          exists fetches,
            calls (trace r)
            = ValidateApproval projectID
              :: repositories.ApproveQuotation projectID :: fetches
            /\ forallb is_query fetches = true)
    /\ (outcome r = Returned None <->
        exists q jobs costs,
          trace r
          = [ {| call := ValidateApproval projectID; resp := None |};
              {| call := repositories.ApproveQuotation projectID; resp := None |};
              {| call := GetByProjectID projectID; resp := (Some q, None) |};
              {| call := GetQuotationJobs projectID; resp := (jobs, None) |};
              {| call := GetQuotationGeneralCosts projectID; resp := (costs, None) |} ])
    /\ (forall s1 s2,
          respond repo (ValidateApproval projectID) s = (None, s1) ->
          respond repo (repositories.ApproveQuotation projectID) s1 = (None, s2) ->
          (forall q e s3,
              respond repo (GetByProjectID projectID) s2 = ((q, Some e), s3) ->
              outcome r = Returned (Some (fmt_Errorf "failed to get updated quotation: " e))
              /\ store r = s3)
          /\ (forall q s3 jobs e s4,
                respond repo (GetByProjectID projectID) s2 = ((q, None), s3) ->
                respond repo (GetQuotationJobs projectID) s3 = ((jobs, Some e), s4) ->
                outcome r = Returned (Some (fmt_Errorf "failed to get quotation jobs: " e))
                /\ store r = s4)
          /\ (forall q s3 jobs s4 costs e s5,
                respond repo (GetByProjectID projectID) s2 = ((q, None), s3) ->
                respond repo (GetQuotationJobs projectID) s3 = ((jobs, None), s4) ->
                respond repo (GetQuotationGeneralCosts projectID) s4 = ((costs, Some e), s5) ->
                outcome r = Returned (Some (fmt_Errorf "failed to get quotation costs: " e))
                /\ store r = s5)).
Proof.
  intros S repo projectID s r. subst r.
  split; [| split; [| split; [| split]]].
  - intros e s1 Hv. unfold usecase.ApproveQuotation. cbn [run]. rewrite Hv.
    cbn. auto.
  - unfold usecase.ApproveQuotation, is_prefix. crank; eexists; reflexivity.
  - intros s1 Hv. unfold usecase.ApproveQuotation. cbn [run]. rewrite Hv.
    crank; eexists; (split; [reflexivity |]); reflexivity.
  - unfold usecase.ApproveQuotation. crank; split;
      try (intros H; discriminate H);
      try (intros _; do 3 eexists; reflexivity);
      try (intros _; reflexivity);
      intros (? & ? & ? & H);
      first [ apply (f_equal (@List.length Event)) in H; discriminate H
            | apply (f_equal (existsb failed)) in H; discriminate H
            | apply (f_equal (existsb lookupMissed)) in H; discriminate H ].
  - intros s1 s2 Hv Ha. unfold usecase.ApproveQuotation. cbn [run].
    rewrite Hv. cbn [run]. rewrite Ha.
    split; [| split].
    + intros q e s3 Hq. cbn [run]. rewrite Hq. cbn. auto.
    + intros q s3 jobs e s4 Hq Hj. cbn [run]. rewrite Hq. cbn [run].
      rewrite Hj. cbn. auto.
    + intros q s3 jobs s4 costs e s5 Hq Hj Hc. cbn [run]. rewrite Hq. cbn [run].
      rewrite Hj. cbn [run]. rewrite Hc. cbn. auto.
Qed.

Lemma approve_behaviour_witness :
  (let r := run memory.repo (usecase.ApproveQuotation 7%N) (memory.project7 "approved") in
   outcome r = Returned (Some memory.notApprovable)
   /\ store r = memory.project7 "approved"
   /\ calls (trace r) = [ValidateApproval 7%N])
  /\ (let r := run memory.repo (usecase.ApproveQuotation 7%N) (quoted7 "draft") in
      outcome r = Returned None
      /\ option_map models.Status (memory.lookup 7%N (memory.quotations (store r)))
         = Some "approved"%string).
Proof.
  split.
  - destruct (@approve_behaviour memory.Store memory.repo 7%N
                (memory.project7 "approved")) as (Hfail & _).
    apply (Hfail memory.notApprovable (memory.project7 "approved")).
    reflexivity.
  - destruct (@approve_behaviour memory.Store memory.repo 7%N (quoted7 "draft"))
      as (_ & _ & _ & Hnil & _).
    split; [| vm_compute; reflexivity].
    apply Hnil. do 3 eexists. vm_compute. reflexivity.
Defined.

Example approval_survives_failed_fetch :
  let r := run brokenLookup (usecase.ApproveQuotation 7%N) (quoted7 "draft") in
  outcome r
  = Returned (Some (fmt_Errorf "failed to get updated quotation: " memory.notFound))
  /\ option_map models.Status (memory.lookup 7%N (memory.quotations (store r)))
     = Some "approved"%string
  /\ calls (trace r)
     = [ValidateApproval 7%N; repositories.ApproveQuotation 7%N; GetByProjectID 7%N].
Proof. vm_compute. repeat split. Qed.

Example approve_nil_quotation_panics :
  outcome (run lostQuotation (usecase.ApproveQuotation 7%N) (quoted7 "draft"))
  = Panicked.
Proof. vm_compute. reflexivity. Qed.

(* ================================================================== *)
(** * Further properties of the use case *)

(** Telling two traces apart by their length, their errors or the
    quotations they carry. *)
Ltac distinguish H :=
  first [ apply (f_equal (@List.length Event)) in H; discriminate H
        | apply (f_equal (map errorOf)) in H; discriminate H
        | apply (f_equal (map quotationOf)) in H; discriminate H ].

(** ** [CreateOrGetQuotation] *)

(** X1.  CreateOrGetQuotation returns a response only with a nil error,
    and the response is the aggregation of the quotation the lookup found
    (or, when it found none, the one Create handed back) with the jobs
    and the costs the repository answered, after a BOQ status of
    "approved". *)
Theorem create_or_get_response :
  forall (S : Type) (repo : QuotationRepository S) projectID s response err,
    outcome (run repo (usecase.CreateOrGetQuotation projectID) s)
      = Returned (Some response, err) ->
    err = None
    /\ exists q jobs costs,
        response = buildQuotationResponse q jobs costs
        /\ (trace (run repo (usecase.CreateOrGetQuotation projectID) s)
            = [ {| call := CheckBOQStatus projectID; resp := ("approved"%string, None) |};
                {| call := GetByProjectID projectID; resp := (Some q, None) |};
                {| call := GetQuotationJobs projectID; resp := (jobs, None) |};
                {| call := GetQuotationGeneralCosts projectID; resp := (costs, None) |} ]
            \/ trace (run repo (usecase.CreateOrGetQuotation projectID) s)
            = [ {| call := CheckBOQStatus projectID; resp := ("approved"%string, None) |};
                {| call := GetByProjectID projectID; resp := (None, None) |};
                {| call := Create projectID; resp := (Some q, None) |};
                {| call := GetQuotationJobs projectID; resp := (jobs, None) |};
                {| call := GetQuotationGeneralCosts projectID; resp := (costs, None) |} ]).
Proof.
  intros S repo projectID s response err.
  unfold usecase.CreateOrGetQuotation. crank; intros H; try discriminate H;
    approved; injection H as <- <-; (split; [reflexivity |]);
    do 3 eexists; (split; [reflexivity |]);
    first [left; reflexivity | right; reflexivity].
Qed.

Lemma create_or_get_response_witness :
  let s := memory.project7 "approved" in
  let r := run memory.repo (usecase.CreateOrGetQuotation 7%N) s in
  exists response,
    outcome r = Returned (Some response, None)
    /\ exists q jobs costs, response = buildQuotationResponse q jobs costs.
Proof.
  intros s r.
  assert (Hout : exists response, outcome r = Returned (Some response, None))
    by (eexists; vm_compute; reflexivity).
  destruct Hout as [response Hout].
  destruct (@create_or_get_response memory.Store memory.repo 7%N s response None Hout)
    as (_ & q & jobs & costs & Hresp & _).
  exists response. split; [exact Hout |].
  exists q, jobs, costs. exact Hresp.
Defined.

(** X2.  CreateOrGetQuotation stops at the first repository call that
    fails and returns that call's error as it is, without a response; the
    only error of its own is the one of the BOQ gate, after a single
    call. *)
Theorem create_or_get_stops_at_first_error :
  forall (S : Type) (repo : QuotationRepository S) projectID s,
    let r := run repo (usecase.CreateOrGetQuotation projectID) s in
    existsb failed (removelast (trace r)) = false
    /\ (existsb failed (trace r) = true ->
        exists e,
          outcome r = Returned (None, Some e)
          /\ List.last (map errorOf (trace r)) None = Some e)
    /\ (forall response e,
          outcome r = Returned (response, Some e) ->
          existsb failed (trace r) = false ->
          e = usecase.notApprovedForCreate
          /\ calls (trace r) = [CheckBOQStatus projectID]).
Proof.
  intros S repo projectID s r. subst r.
  unfold usecase.CreateOrGetQuotation.
  split; [| split].
  - crank; reflexivity.
  - crank; cbn; intros H; try discriminate H; eexists; split; reflexivity.
  - intros response e. crank; cbn; intros H Hf;
      try discriminate H; try discriminate Hf.
    injection H as <- <-. split; reflexivity.
Qed.

Lemma create_or_get_stops_at_first_error_witness :
  let r := run brokenLookup (usecase.CreateOrGetQuotation 7%N) (quoted7 "approved") in
  outcome r = Returned (None, Some memory.notFound)
  /\ calls (trace r) = [CheckBOQStatus 7%N; GetByProjectID 7%N].
Proof.
  intros r.
  destruct (@create_or_get_stops_at_first_error memory.Store brokenLookup 7%N
              (quoted7 "approved")) as (_ & Hfirst & _).
  destruct (Hfirst eq_refl) as (e & Hout & Hlast).
  fold r in Hout, Hlast. vm_compute in Hlast. injection Hlast as <-.
  split; [exact Hout | reflexivity].
Defined.

(** X3.  CreateOrGetQuotation panics in exactly one situation: Create
    answered a nil quotation without error and both fetches went
    through, so the aggregation reads through the nil pointer. *)
Theorem create_or_get_panics_iff :
  forall (S : Type) (repo : QuotationRepository S) projectID s,
    let r := run repo (usecase.CreateOrGetQuotation projectID) s in
    outcome r = Panicked <->
    exists jobs costs,
      trace r
      = [ {| call := CheckBOQStatus projectID; resp := ("approved"%string, None) |};
          {| call := GetByProjectID projectID; resp := (None, None) |};
          {| call := Create projectID; resp := (None, None) |};
          {| call := GetQuotationJobs projectID; resp := (jobs, None) |};
          {| call := GetQuotationGeneralCosts projectID; resp := (costs, None) |} ].
Proof.
  intros S repo projectID s r. subst r.
  unfold usecase.CreateOrGetQuotation. crank; split;
    try (intros H; discriminate H);
    try (intros (? & ? & H); distinguish H);
    try (intros _; reflexivity).
  intros _. approved. do 2 eexists. reflexivity.
Qed.

(** X19.  CreateOrGetQuotation asks the repository in a fixed order and
    only about the project at hand: BOQ status, lookup, then (after a
    missed lookup) Create, then jobs, then general costs; a run is always
    a beginning of one of these two sequences. *)
Theorem create_or_get_call_order :
  forall (S : Type) (repo : QuotationRepository S) projectID s,
    let tr := trace (run repo (usecase.CreateOrGetQuotation projectID) s) in
    tr <> []
    /\ (is_prefix (calls tr)
          [CheckBOQStatus projectID; GetByProjectID projectID;
           GetQuotationJobs projectID; GetQuotationGeneralCosts projectID]
        \/ is_prefix (calls tr)
          [CheckBOQStatus projectID; GetByProjectID projectID; Create projectID;
           GetQuotationJobs projectID; GetQuotationGeneralCosts projectID]).
Proof.
  intros S repo projectID s tr. subst tr.
  unfold usecase.CreateOrGetQuotation, is_prefix.
  crank; (split; [discriminate |]);
    first [ left; eexists; reflexivity | right; eexists; reflexivity ].
Qed.

(** ** [ExportQuotation] *)

(** X4.  When the repository reports a BOQ status other than "approved",
    ExportQuotation returns the error "BOQ must be approved before
    exporting quotation" after that single call: the quotation status is
    not asked for and no export data is fetched. *)
Theorem export_needs_approved_boq :
  forall (S : Type) (repo : QuotationRepository S) projectID s status s1,
    respond repo (CheckBOQStatus projectID) s = ((status, None), s1) ->
    status <> "approved"%string ->
    run repo (usecase.ExportQuotation projectID) s
    = {| outcome :=
           Returned (None, Some (errors_New "BOQ must be approved before exporting quotation"));
         store := s1;
         trace := [{| call := CheckBOQStatus projectID; resp := (status, None) |}] |}.
Proof.
  intros S repo projectID s status s1 Hboq Hstatus.
  unfold usecase.ExportQuotation. cbn [run]. rewrite Hboq.
  rewrite (neq_approved Hstatus). reflexivity.
Qed.

Lemma export_needs_approved_boq_witness :
  run memory.repo (usecase.ExportQuotation 7%N) (memory.project7 "draft")
  = {| outcome :=
         Returned (None, Some (errors_New "BOQ must be approved before exporting quotation"));
       store := memory.project7 "draft";
       trace := [{| call := CheckBOQStatus 7%N; resp := ("draft"%string, None) |}] |}.
Proof.
  apply (@export_needs_approved_boq memory.Store memory.repo 7%N
           (memory.project7 "draft") "draft" (memory.project7 "draft")).
  - reflexivity.
  - discriminate.
Defined.

(** X5.  ExportQuotation never panics, stops at the first repository
    call that fails and returns that call's error as it is, without
    data; its own errors are the two gate errors. *)
Theorem export_stops_at_first_error :
  forall (S : Type) (repo : QuotationRepository S) projectID s,
    let r := run repo (usecase.ExportQuotation projectID) s in
    outcome r <> Panicked
    /\ existsb failed (removelast (trace r)) = false
    /\ (existsb failed (trace r) = true ->
        exists e,
          outcome r = Returned (None, Some e)
          /\ List.last (map errorOf (trace r)) None = Some e)
    /\ (forall data e,
          outcome r = Returned (data, Some e) ->
          existsb failed (trace r) = false ->
          data = None
          /\ (e = usecase.notApprovedForExport \/ e = usecase.onlyApprovedExported)).
Proof.
  intros S repo projectID s r. subst r.
  unfold usecase.ExportQuotation.
  split; [| split; [| split]].
  - crank; discriminate.
  - crank; reflexivity.
  - crank; cbn; intros H; try discriminate H; eexists; split; reflexivity.
  - intros data e. crank; cbn; intros H Hf;
      try discriminate H; try discriminate Hf;
      injection H as <- <-; auto.
Qed.

Lemma export_stops_at_first_error_witness :
  let r := run memory.repo (usecase.ExportQuotation 7%N) (memory.project7 "approved") in
  outcome r = Returned (None, Some memory.notFound)
  /\ calls (trace r) = [CheckBOQStatus 7%N; GetQuotationStatus 7%N].
Proof.
  intros r.
  destruct (@export_stops_at_first_error memory.Store memory.repo 7%N
              (memory.project7 "approved")) as (_ & _ & Hfirst & _).
  destruct (Hfirst eq_refl) as (e & Hout & Hlast).
  fold r in Hout, Hlast. vm_compute in Hlast. injection Hlast as <-.
  split; [exact Hout | reflexivity].
Defined.

(** ** [ApproveQuotation] *)

(** X6.  When the validation passes and the approval write fails,
    ApproveQuotation returns the error of the write as it is (not
    wrapped) and fetches nothing. *)
Theorem approve_write_failure :
  forall (S : Type) (repo : QuotationRepository S) projectID s s1 e s2,
    respond repo (ValidateApproval projectID) s = (None, s1) ->
    respond repo (repositories.ApproveQuotation projectID) s1 = (Some e, s2) ->
    run repo (usecase.ApproveQuotation projectID) s
    = {| outcome := Returned (Some e);
         store := s2;
         trace := [ {| call := ValidateApproval projectID; resp := None |};
                    {| call := repositories.ApproveQuotation projectID; resp := Some e |} ] |}.
Proof.
  intros S repo projectID s s1 e s2 Hv Ha.
  unfold usecase.ApproveQuotation. cbn [run]. rewrite Hv. cbn [run].
  rewrite Ha. reflexivity.
Qed.

Lemma approve_write_failure_witness :
  run refusingWrite (usecase.ApproveQuotation 7%N) (quoted7 "draft")
  = {| outcome := Returned (Some memory.notFound);
       store := quoted7 "draft";
       trace := [ {| call := ValidateApproval 7%N; resp := None |};
                  {| call := repositories.ApproveQuotation 7%N;
                     resp := Some memory.notFound |} ] |}.
Proof.
  apply (@approve_write_failure memory.Store refusingWrite 7%N
           (quoted7 "draft") (quoted7 "draft") memory.notFound (quoted7 "draft"));
    reflexivity.
Defined.

(** X7.  ApproveQuotation panics in exactly one situation: validation
    and approval write went through, the lookup then answered a nil
    quotation without error and both fetches went through.  The approval
    has been written by then. *)
Theorem approve_panics_iff :
  forall (S : Type) (repo : QuotationRepository S) projectID s,
    let r := run repo (usecase.ApproveQuotation projectID) s in
    outcome r = Panicked <->
    exists jobs costs,
      trace r
      = [ {| call := ValidateApproval projectID; resp := None |};
          {| call := repositories.ApproveQuotation projectID; resp := None |};
          {| call := GetByProjectID projectID; resp := (None, None) |};
          {| call := GetQuotationJobs projectID; resp := (jobs, None) |};
          {| call := GetQuotationGeneralCosts projectID; resp := (costs, None) |} ].
Proof.
  intros S repo projectID s r. subst r.
  unfold usecase.ApproveQuotation. crank; split;
    try (intros H; discriminate H);
    try (intros (? & ? & H); distinguish H);
    try (intros _; reflexivity).
  intros _. do 2 eexists. reflexivity.
Qed.

Lemma create_or_get_panics_iff_witness :
  outcome (run emptyCreate (usecase.CreateOrGetQuotation 7%N) (memory.project7 "approved"))
  = Panicked.
Proof.
  apply (@create_or_get_panics_iff memory.Store emptyCreate 7%N
           (memory.project7 "approved")).
  do 2 eexists. vm_compute. reflexivity.
Defined.

Lemma approve_panics_iff_witness :
  outcome (run lostQuotation (usecase.ApproveQuotation 7%N) (quoted7 "draft"))
  = Panicked.
Proof.
  apply (@approve_panics_iff memory.Store lostQuotation 7%N (quoted7 "draft")).
  do 2 eexists. vm_compute. reflexivity.
Defined.

(* ================================================================== *)
(** * Further properties of the aggregator *)

Lemma material_by_column (l : list models.QuotationJob) :
  map totalEst (filter pricedJob l)
  = map sql.Float64 (filter sql.Valid (map models.TotalEstPrice l)).
Proof.
  induction l as [| job l IH]; [reflexivity |].
  cbn [map filter]. unfold pricedJob at 1.
  destruct (sql.Valid (models.TotalEstPrice job)); cbn [map]; rewrite IH;
    reflexivity.
Qed.

Lemma general_by_column (l : list models.QuotationGeneralCost) :
  map estCost (filter pricedCost l)
  = map sql.Float64 (filter sql.Valid (map models.EstimatedCost l)).
Proof.
  induction l as [| cost l IH]; [reflexivity |].
  cbn [map filter]. unfold pricedCost at 1.
  destruct (sql.Valid (models.EstimatedCost cost)); cbn [map]; rewrite IH;
    reflexivity.
Qed.

Lemma sameMoney_columns (l1 l2 : list models.QuotationJob) :
  Forall2 sameMoney l1 l2 ->
  map models.TotalLaborCost l1 = map models.TotalLaborCost l2
  /\ map models.TotalEstPrice l1 = map models.TotalEstPrice l2.
Proof.
  induction 1 as [| a b l1 l2 [Hl He] _ [IHl IHe]]; [split; reflexivity |].
  cbn [map]. rewrite Hl, He, IHl, IHe. split; reflexivity.
Qed.

(** X8.  The summary depends only on the jobs' TotalLaborCost and
    TotalEstPrice columns, the costs' EstimatedCost column and the
    quotation's tax percentage: inputs that agree on these, row by row,
    have the same summary, whatever their names, units, quantities, unit
    labour costs, estimated unit prices, precomputed totals and selling
    prices, which only the rows display. *)
Theorem summary_ignores_display_columns :
  forall q1 q2 jobs1 jobs2 costs1 costs2,
    models.TaxPercentage q1 = models.TaxPercentage q2 ->
    Forall2 sameMoney (elems jobs1) (elems jobs2) ->
    map models.EstimatedCost (elems costs1) = map models.EstimatedCost (elems costs2) ->
    responses.Summary (buildQuotationResponse q1 jobs1 costs1)
    = responses.Summary (buildQuotationResponse q2 jobs2 costs2).
Proof.
  intros q1 q2 jobs1 jobs2 costs1 costs2 Htax Hjobs Hcosts.
  destruct (sameMoney_columns Hjobs) as [Hlabor Hest].
  unfold buildQuotationResponse; cbn [responses.Summary].
  rewrite !processJobs_labor, !processJobs_material, !processCosts_total.
  rewrite !material_by_column, !general_by_column.
  rewrite Hlabor, Hest, Hcosts.
  unfold calculate; cbn [subtotal tax total taxPercentage].
  rewrite Htax. reflexivity.
Qed.

Lemma summary_ignores_display_columns_witness :
  responses.Summary
    (buildQuotationResponse plainQuotation (mk_slice [unpricedJob]) nil_slice)
  = responses.Summary
      (buildQuotationResponse plainQuotation
         (mk_slice [exampleJob "fill" "m2" (F64.of_Z 9) (F64.of_Z 1)
                      (present (F64.of_Z 80)) (present (F64.of_Z 99))
                      (F64.dec 50004 3) absent (present (F64.of_Z 700))])
         (mk_slice [])).
Proof.
  apply summary_ignores_display_columns.
  - reflexivity.
  - repeat constructor.
  - reflexivity.
Defined.

(** X9.  A project without jobs and without priced general costs has
    labour, material and general totals and a subtotal of exactly +0.
    Its tax is zero and its total +0 when the tax rate
    (percentage / 100) is a finite number; with an infinite or NaN tax
    percentage the tax [0 * rate] and the total are NaN. *)
Theorem empty_project_summary :
  forall quotation jobs costs,
    elems jobs = [] ->
    existsb pricedCost (elems costs) = false ->
    let r := buildQuotationResponse quotation jobs costs in
    let rate := (taxPercentage (rawTotals quotation jobs costs) / F64.of_Z 100)%f64 in
    responses.TotalLaborCost (responses.Summary r) = F64.zero
    /\ responses.TotalMaterialCost (responses.Summary r) = F64.zero
    /\ responses.TotalGeneralCost (responses.Summary r) = F64.zero
    /\ responses.SubTotal (responses.Summary r) = F64.zero
    /\ (F64.is_finite rate = true ->
        (responses.Tax (responses.Summary r) == F64.zero)%f64 = true
        /\ responses.Total (responses.Summary r) = F64.zero)
    /\ (F64.is_finite rate = false ->
        F64.is_nan (responses.Tax (responses.Summary r)) = true
        /\ F64.is_nan (responses.Total (responses.Summary r)) = true).
Proof.
  intros quotation jobs costs Hjobs Hcosts r rate. subst r rate.
  unfold rawTotals, buildQuotationResponse;
    cbn [responses.Summary responses.TotalLaborCost responses.TotalMaterialCost
         responses.TotalGeneralCost responses.SubTotal responses.Tax
         responses.Total].
  rewrite !processJobs_labor, !processJobs_material, !processCosts_total.
  rewrite Hjobs, (filter_none _ _ Hcosts). cbn [filter map].
  rewrite !roundFloat_2.
  unfold calculate; cbn [subtotal tax total taxPercentage].
  match goal with
  | |- context [(?p / F64.of_Z 100)%f64] => generalize (p / F64.of_Z 100)%f64
  end.
  intros rate.
  destruct rate as [sg | sg | | sg m e]; try destruct sg; vm_compute;
    repeat split; try reflexivity; congruence.
Qed.

Lemma empty_project_summary_witness :
  let r := buildQuotationResponse plainQuotation nil_slice
             (mk_slice [exampleCost "permits" absent]) in
  responses.SubTotal (responses.Summary r) = F64.zero
  /\ (responses.Tax (responses.Summary r) == F64.zero)%f64 = true
  /\ responses.Total (responses.Summary r) = F64.zero.
Proof.
  intros r.
  destruct (@empty_project_summary plainQuotation nil_slice
              (mk_slice [exampleCost "permits" absent]) eq_refl eq_refl)
    as (_ & _ & _ & Hsub & Hfinite & _).
  split; [exact Hsub |]. apply Hfinite. vm_compute. reflexivity.
Defined.

(** ** Rounding and the sign *)

Lemma binary_round_aux_opp (s : bool) (m e : Z) (l : location) :
  binary_round_aux F64.prec F64.emax (negb s) m e l
  = SFopp (binary_round_aux F64.prec F64.emax s m e l).
Proof.
  unfold binary_round_aux.
  destruct (shr_fexp F64.prec F64.emax m e l) as [mrs e'].
  destruct (shr_fexp F64.prec F64.emax _ e' loc_Exact) as [mrs' e''].
  destruct (shr_m mrs'); cbn [SFopp]; try reflexivity.
  destruct (e'' <=? F64.emax - F64.prec)%Z; reflexivity.
Qed.

Lemma binary_round_opp (s : bool) (m : positive) (e : Z) :
  binary_round F64.prec F64.emax (negb s) m e
  = SFopp (binary_round F64.prec F64.emax s m e).
Proof.
  unfold binary_round.
  destruct (shl_align m e _) as [mz ez]. apply binary_round_aux_opp.
Qed.

Lemma mul_neg (x y : float64) : (neg x * y)%f64 = neg (x * y)%f64.
Proof.
  unfold neg, F64.mul.
  destruct x as [sx | sx | | sx mx ex], y as [sy | sy | | sy my ey];
    cbn [SFopp SFmul]; rewrite <- ?negb_xorb_l; try reflexivity.
  apply binary_round_aux_opp.
Qed.

Lemma div_neg (x y : float64) : (neg x / y)%f64 = neg (x / y)%f64.
Proof.
  unfold neg, F64.div.
  destruct x as [sx | sx | | sx mx ex], y as [sy | sy | | sy my ey];
    cbn [SFopp SFdiv]; rewrite <- ?negb_xorb_l; try reflexivity.
  destruct (SFdiv_core_binary F64.prec F64.emax (Zpos mx) ex (Zpos my) ey)
    as [[mz ez] lz].
  apply binary_round_aux_opp.
Qed.

Lemma Round_neg (x : float64) : F64.Round (neg x) = neg (F64.Round x).
Proof.
  unfold neg. destruct x as [s | s | | s m e]; try reflexivity.
  cbn [SFopp F64.Round].
  destruct (0 <=? e)%Z; [reflexivity |].
  cbv zeta.
  destruct (Z.shiftr (Z.pos m + 2 ^ (- e - 1)) (- e)) as [| q | q].
  - destruct s; reflexivity.
  - destruct s; cbn [cond_Zopp negb Z.opp binary_normalize];
      [apply (binary_round_opp true) | apply (binary_round_opp false)].
  - destruct s; cbn [cond_Zopp negb Z.opp binary_normalize];
      [apply (binary_round_opp false) | apply (binary_round_opp true)].
Qed.

(** X10.  Rounding is symmetric about zero: the rounded negation of an
    amount is the negation of the rounded amount, for every number
    (halves go away from zero on both sides, and zeros, infinities and
    NaN keep their kind). *)
Theorem roundFloat_neg :
  forall x : float64, roundFloat (neg x) 2 = neg (roundFloat x 2).
Proof.
  intros x. rewrite !roundFloat_2. unfold round2.
  rewrite mul_neg, Round_neg, div_neg. reflexivity.
Qed.

(* ================================================================== *)
(** * Configuration from the environment *)

Lemma digits_reject (c : Ascii.ascii) (post : string) :
  main.digit c = None ->
  forall pre n, main.digits n (pre ++ String c post) = None.
Proof.
  intros Hc pre. induction pre as [| a pre IH]; intros n; cbn.
  - now rewrite Hc.
  - destruct (main.digit a); [apply IH | reflexivity].
Qed.

Lemma Atoi_reject (pre : string) (c : Ascii.ascii) (post : string) :
  pre <> EmptyString ->
  main.digit c = None ->
  main.Atoi (pre ++ String c post) = None.
Proof.
  intros Hpre Hc. destruct pre as [| a pre]; [congruence |].
  cbn [String.append]. unfold main.Atoi. cbv zeta.
  destruct (main.isSign a).
  - rewrite (@digits_reject c post Hc pre 0).
    destruct (pre ++ String c post)%string; reflexivity.
  - change (String a (pre ++ String c post))
      with (String a pre ++ String c post)%string.
    rewrite (@digits_reject c post Hc (String a pre) 0). reflexivity.
Qed.

(** X11.  A variable that is set to the empty string makes getEnv return
    the empty string, not the default, while getEnvAsInt returns its
    default for it, exactly as for a variable that is not set.
    getEnvAsInt also returns the default, never a number read from a
    part of the value, when the value has a character that is not a
    decimal digit anywhere after its first character (a trailing space,
    a decimal point, an underscore). *)
Theorem getEnv_fallbacks :
  forall env key defaultValue defaultInt,
    (main.LookupEnv env key = None ->
     main.getEnv env key defaultValue = defaultValue
     /\ main.getEnvAsInt env key defaultInt = defaultInt)
    /\ (main.LookupEnv env key = Some EmptyString ->
        main.getEnv env key defaultValue = EmptyString
        /\ main.getEnvAsInt env key defaultInt = defaultInt)
    /\ (forall pre c post,
          main.LookupEnv env key = Some (pre ++ String c post)%string ->
          pre <> EmptyString ->
          main.digit c = None ->
          main.getEnv env key defaultValue = (pre ++ String c post)%string
          /\ main.getEnvAsInt env key defaultInt = defaultInt).
Proof.
  intros env key defaultValue defaultInt.
  unfold main.getEnvAsInt, main.getEnv.
  split; [| split].
  - intros ->. split; reflexivity.
  - intros ->. split; reflexivity.
  - intros pre c post Hv Hpre Hc. rewrite Hv.
    split; [reflexivity |]. now rewrite Atoi_reject.
Qed.

Lemma getEnv_fallbacks_witness :
  let env := [("DB_HOST", ""); ("PORT", "8004 ")]%string in
  main.getEnv env "DB_HOST" "localhost" = EmptyString
  /\ main.getEnvAsInt env "DB_HOST" 5432 = 5432%Z
  /\ main.getEnv env "DB_PORT" "5432" = "5432"%string
  /\ main.getEnvAsInt env "DB_PORT" 5432 = 5432%Z
  /\ main.getEnvAsInt env "PORT" 8080 = 8080%Z.
Proof.
  intros env.
  destruct (getEnv_fallbacks env "DB_HOST" "localhost" 5432) as (_ & Hempty & _).
  destruct (getEnv_fallbacks env "DB_PORT" "5432" 5432) as (Hunset & _).
  destruct (getEnv_fallbacks env "PORT" "8004" 8080) as (_ & _ & Hbad).
  destruct (Hempty eq_refl) as [H1 H2].
  destruct (Hunset eq_refl) as [H3 H4].
  destruct (Hbad "8004"%string (Ascii.ascii_of_nat 32) EmptyString eq_refl)
    as [_ H5]; [discriminate | reflexivity |].
  repeat split; assumption.
Defined.

Example getEnvAsInt_reads :
  main.getEnvAsInt [("DB_PORT", "5433")]%string "DB_PORT" 5432 = 5433%Z
  /\ main.getEnvAsInt [("DB_PORT", "+5433")]%string "DB_PORT" 5432 = 5433%Z
  /\ main.getEnvAsInt [("DB_PORT", "-1")]%string "DB_PORT" 5432 = (-1)%Z
  /\ main.getEnvAsInt [("DB_PORT", "0x1F")]%string "DB_PORT" 5432 = 5432%Z
  /\ main.getEnvAsInt [("DB_PORT", "9223372036854775808")]%string "DB_PORT" 5432
     = 5432%Z.
Proof. vm_compute. repeat split. Qed.

(* ================================================================== *)
(** * Properties of the supplier repository *)

Ltac pg_settle :=
  cbn [postgres.run postgres.returned postgres.after postgres.trace
       postgres.call postgres.resp postgres.calls postgres.isClose
       postgres.touchesRows postgres.queried postgres.isStatement
       existsb filter map List.length List.last app fst snd
       negb orb andb] in *.

(** Case analysis on every answer and every test along a run. *)
Ltac pg_crank :=
  repeat (pg_settle;
          match goal with
          | |- context [match ?x with _ => _ end] => is_var x; destruct x
          | |- context [match postgres.answer ?db ?c ?d with _ => _ end] =>
              destruct (postgres.answer db c d) eqn:?
          | |- context [strings.Contains ?a ?b] =>
              destruct (strings.Contains a b) eqn:?
          | |- context [(?n =? 0)%Z] => destruct (n =? 0)%Z eqn:?
          end);
  pg_settle.

(** ** [Create] *)

(** X12.  Create closes the rows exactly once, as its last action, on
    every path on which the insert statement went through, and never
    touches rows when the statement failed. *)
Theorem create_closes_rows :
  forall (D : Type) (db : postgres.DB D) req d,
    let tr := postgres.trace (postgres.run db (postgres.Create req) d) in
    List.length (filter postgres.isClose tr)
      = (if existsb postgres.queried tr then 1 else 0)
    /\ (existsb postgres.queried tr = true ->
        List.last (postgres.calls tr) postgres.uuid_New = postgres.rows_Close)
    /\ (existsb postgres.queried tr = false ->
        existsb postgres.touchesRows tr = false).
Proof.
  intros D db req d tr. subst tr. unfold postgres.Create.
  split; [| split]; pg_crank; try reflexivity; intros H; discriminate H.
Qed.

Lemma create_closes_rows_witness :
  let req :=
    {| postgres.CreateSupplierRequest.Name := "Acme";
       postgres.CreateSupplierRequest.Email := "sales@acme.test";
       postgres.CreateSupplierRequest.Tel := "02-000-0000";
       postgres.CreateSupplierRequest.Address := "Bangkok" |} in
  let tr := postgres.trace
              (postgres.run postgres.canned (postgres.Create req) postgres.missing) in
  List.last (postgres.calls tr) postgres.uuid_New = postgres.rows_Close
  /\ List.length (filter postgres.isClose tr) = 1.
Proof.
  intros req tr.
  destruct (@create_closes_rows postgres.Canned postgres.canned req postgres.missing)
    as (Hcount & Hlast & _).
  split; [exact (Hlast eq_refl) | exact Hcount].
Defined.

(** X13.  When the insert statement fails, Create returns no supplier;
    a driver error whose text contains "unique constraint" is replaced by
    "supplier with this email already exists" (the driver's text is not
    passed on), any other error is wrapped as "filed to create supplier:
    ..."; nothing is asked of the database after the failed statement. *)
Theorem create_statement_failure :
  forall (D : Type) (db : postgres.DB D) req d id d1 e d2,
    let supplier :=
      {| postgres.SupplierID := id;
         postgres.Name := postgres.CreateSupplierRequest.Name req;
         postgres.Email := postgres.CreateSupplierRequest.Email req;
         postgres.Tel := postgres.CreateSupplierRequest.Tel req;
         postgres.Address := postgres.CreateSupplierRequest.Address req |} in
    postgres.answer db postgres.uuid_New d = (id, d1) ->
    postgres.answer db (postgres.NamedQueryContext postgres.createQuery supplier) d1
      = (Some e, d2) ->
    postgres.run db (postgres.Create req) d
    = {| postgres.returned :=
           (None,
            Some (if strings.Contains (postgres.Error e) "unique constraint"
                  then postgres.errors_New "supplier with this email already exists"
                  else postgres.fmt_Errorf "filed to create supplier: " e));
         postgres.after := d2;
         postgres.trace :=
           [ {| postgres.call := postgres.uuid_New; postgres.resp := id |};
             {| postgres.call := postgres.NamedQueryContext postgres.createQuery supplier;
                postgres.resp := Some e |} ] |}.
Proof.
  intros D db req d id d1 e d2 supplier Hid Hq. subst supplier.
  unfold postgres.Create. cbn [postgres.run]. rewrite Hid.
  cbn [postgres.run]. rewrite Hq.
  destruct (strings.Contains _ _); reflexivity.
Qed.

Lemma create_statement_failure_witness :
  let req :=
    {| postgres.CreateSupplierRequest.Name := "Acme";
       postgres.CreateSupplierRequest.Email := "sales@acme.test";
       postgres.CreateSupplierRequest.Tel := "02-000-0000";
       postgres.CreateSupplierRequest.Address := "Bangkok" |} in
  postgres.returned (postgres.run postgres.canned (postgres.Create req) postgres.duplicate)
    = (None, Some (postgres.errors_New "supplier with this email already exists"))
  /\ postgres.returned (postgres.run postgres.canned (postgres.Create req) postgres.down)
    = (None, Some (postgres.fmt_Errorf "filed to create supplier: "
                     (postgres.errors_New "dial tcp: connection refused"))).
Proof.
  intros req. split.
  - rewrite (@create_statement_failure postgres.Canned postgres.canned req
               postgres.duplicate 42%N postgres.duplicate
               (postgres.errors_New
                  "pq: duplicate key value violates unique constraint supplier_email_key")
               postgres.duplicate eq_refl eq_refl).
    reflexivity.
  - rewrite (@create_statement_failure postgres.Canned postgres.canned req
               postgres.down 42%N postgres.down
               (postgres.errors_New "dial tcp: connection refused")
               postgres.down eq_refl eq_refl).
    reflexivity.
Defined.

(** X14.  Create returns a supplier only with a nil error, and the
    supplier is the one StructScan read from the first row the statement
    gave back (what the database stored, not the request), after the
    record with the fresh id and the fields of the request was sent. *)
Theorem create_returns_scanned_row :
  forall (D : Type) (db : postgres.DB D) req d supplier err,
    postgres.returned (postgres.run db (postgres.Create req) d) = (Some supplier, err) ->
    err = None
    /\ exists id,
        let sent :=
          {| postgres.SupplierID := id;
             postgres.Name := postgres.CreateSupplierRequest.Name req;
             postgres.Email := postgres.CreateSupplierRequest.Email req;
             postgres.Tel := postgres.CreateSupplierRequest.Tel req;
             postgres.Address := postgres.CreateSupplierRequest.Address req |} in
        postgres.trace (postgres.run db (postgres.Create req) d)
        = [ {| postgres.call := postgres.uuid_New; postgres.resp := id |};
            {| postgres.call := postgres.NamedQueryContext postgres.createQuery sent;
               postgres.resp := None |};
            {| postgres.call := postgres.rows_Next; postgres.resp := true |};
            {| postgres.call := postgres.rows_StructScan sent;
               postgres.resp := (supplier, None) |};
            {| postgres.call := postgres.rows_Close; postgres.resp := tt |} ].
Proof.
  intros D db req d supplier err. unfold postgres.Create.
  pg_crank; intros H; try discriminate H.
  injection H as <- <-. split; [reflexivity |].
  eexists. cbv zeta. repeat f_equal.
  match goal with |- ?u = tt => destruct u; reflexivity end.
Qed.

Lemma create_returns_scanned_row_witness :
  let req :=
    {| postgres.CreateSupplierRequest.Name := "ACME Co.";
       postgres.CreateSupplierRequest.Email := "Sales@Acme.test";
       postgres.CreateSupplierRequest.Tel := "02-000-0000";
       postgres.CreateSupplierRequest.Address := "Bangkok" |} in
  let r := postgres.run postgres.canned (postgres.Create req) postgres.healthy in
  postgres.returned r = (Some postgres.acme, None)
  /\ List.length (postgres.trace r) = 5.
Proof.
  intros req r.
  destruct (@create_returns_scanned_row postgres.Canned postgres.canned req
              postgres.healthy postgres.acme None eq_refl) as (_ & id & Htr).
  split; [reflexivity |]. fold r in Htr. rewrite Htr. reflexivity.
Defined.

(** ** [Update] and [Delete] *)

(** X15.  Delete sends exactly one statement.  It returns nil exactly
    when the statement went through, the count of affected rows could be
    read and that count is not zero; with a count of zero it returns
    "supplier not found". *)
Theorem delete_result :
  forall (D : Type) (db : postgres.DB D) id d,
    let r := postgres.run db (postgres.Delete id) d in
    let sent := postgres.answer db
                  (postgres.ExecContext postgres.deleteQuery [postgres.arg_uuid id]) d in
    let counted := postgres.answer db postgres.result_RowsAffected (snd sent) in
    (postgres.returned r = None <->
     fst sent = None /\ snd (fst counted) = None /\ fst (fst counted) <> 0%Z)
    /\ (fst sent = None -> fst counted = (0%Z, None) ->
        postgres.returned r = Some (postgres.errors_New "supplier not found"))
    /\ List.length (filter postgres.isStatement (postgres.trace r)) = 1.
Proof.
  intros D db id d r sent counted. subst r sent counted.
  unfold postgres.Delete. cbn [postgres.run].
  destruct (postgres.answer db _ d) as [[e1 |] d1]; cbn [fst snd].
  - pg_settle. split; [| split]; [| discriminate | reflexivity].
    split; [discriminate | intros [H _]; discriminate H].
  - cbn [postgres.run].
    destruct (postgres.answer db postgres.result_RowsAffected d1)
      as [[n [e2 |]] d2]; cbn [fst snd]; pg_settle.
    + split; [| split]; [| discriminate | reflexivity].
      split; [discriminate | intros (_ & H & _); discriminate H].
    + destruct (n =? 0)%Z eqn:Hn; pg_settle.
      * apply Z.eqb_eq in Hn. subst n.
        split; [| split]; [| reflexivity | reflexivity].
        split; [discriminate | intros (_ & _ & H); congruence].
      * apply Z.eqb_neq in Hn.
        split; [| split]; [| intros _ H; congruence | reflexivity].
        split; [intros _; repeat split; assumption | reflexivity].
Qed.

Lemma delete_result_witness :
  postgres.returned (postgres.run postgres.canned (postgres.Delete 42%N) postgres.missing)
    = Some (postgres.errors_New "supplier not found")
  /\ postgres.returned (postgres.run postgres.canned (postgres.Delete 42%N) postgres.healthy)
    = None.
Proof.
  destruct (@delete_result postgres.Canned postgres.canned 42%N postgres.missing)
    as (_ & Hzero & _).
  destruct (@delete_result postgres.Canned postgres.canned 42%N postgres.healthy)
    as (Hnil & _).
  split; [apply Hzero; reflexivity |].
  apply Hnil. repeat split. discriminate.
Defined.

(** X16.  Update sends exactly one statement.  It returns nil exactly
    when the statement went through, the count of affected rows could be
    read and that count is not zero; with a count of zero it returns
    "supplier not found", and a failed statement whose driver text
    contains "unique constraint" is reported as "supplier with this email
    already exists". *)
Theorem update_result :
  forall (D : Type) (db : postgres.DB D) id req d,
    let r := postgres.run db (postgres.Update id req) d in
    let sent := postgres.answer db
                  (postgres.NamedExecContext postgres.updateQuery
                     (postgres.updateParams id req)) d in
    let counted := postgres.answer db postgres.result_RowsAffected (snd sent) in
    (postgres.returned r = None <->
     fst sent = None /\ snd (fst counted) = None /\ fst (fst counted) <> 0%Z)
    /\ (fst sent = None -> fst counted = (0%Z, None) ->
        postgres.returned r = Some (postgres.errors_New "supplier not found"))
    /\ (forall e,
          fst sent = Some e ->
          strings.Contains (postgres.Error e) "unique constraint" = true ->
          postgres.returned r
          = Some (postgres.errors_New "supplier with this email already exists"))
    /\ List.length (filter postgres.isStatement (postgres.trace r)) = 1.
Proof.
  intros D db id req d r sent counted. subst r sent counted.
  unfold postgres.Update. cbn [postgres.run].
  destruct (postgres.answer db _ d) as [[e1 |] d1]; cbn [fst snd].
  - destruct (strings.Contains (postgres.Error e1) "unique constraint") eqn:Hc;
      pg_settle;
      (split; [| split; [| split]]; [| discriminate | | reflexivity]);
      try (split; [discriminate | intros [H _]; discriminate H]).
    + intros e He _. reflexivity.
    + intros e He Hd. injection He as <-. congruence.
  - cbn [postgres.run].
    destruct (postgres.answer db postgres.result_RowsAffected d1)
      as [[n [e2 |]] d2]; cbn [fst snd]; pg_settle.
    + split; [| split; [| split]]; [| discriminate | discriminate | reflexivity].
      split; [discriminate | intros (_ & H & _); discriminate H].
    + destruct (n =? 0)%Z eqn:Hn; pg_settle.
      * apply Z.eqb_eq in Hn. subst n.
        split; [| split; [| split]]; [| reflexivity | discriminate | reflexivity].
        split; [discriminate | intros (_ & _ & H); congruence].
      * apply Z.eqb_neq in Hn.
        split; [| split; [| split]];
          [| intros _ H; congruence | discriminate | reflexivity].
        split; [intros _; repeat split; assumption | reflexivity].
Qed.

Lemma update_result_witness :
  let req :=
    {| postgres.UpdateSupplierRequest.Name := "Acme";
       postgres.UpdateSupplierRequest.Email := "sales@acme.test";
       postgres.UpdateSupplierRequest.Tel := "02-000-0000";
       postgres.UpdateSupplierRequest.Address := "Bangkok" |} in
  postgres.returned (postgres.run postgres.canned (postgres.Update 42%N req) postgres.missing)
    = Some (postgres.errors_New "supplier not found")
  /\ postgres.returned (postgres.run postgres.canned (postgres.Update 42%N req) postgres.duplicate)
    = Some (postgres.errors_New "supplier with this email already exists")
  /\ postgres.returned (postgres.run postgres.canned (postgres.Update 42%N req) postgres.healthy)
    = None.
Proof.
  intros req.
  destruct (@update_result postgres.Canned postgres.canned 42%N req postgres.missing)
    as (_ & Hzero & _).
  destruct (@update_result postgres.Canned postgres.canned 42%N req postgres.duplicate)
    as (_ & _ & Hdup & _).
  destruct (@update_result postgres.Canned postgres.canned 42%N req postgres.healthy)
    as (Hnil & _).
  split; [apply Hzero; reflexivity |].
  split; [eapply Hdup; reflexivity |].
  apply Hnil. repeat split. discriminate.
Defined.

(** ** [GetByID] and [GetByEmail] *)

(** X17.  The two lookups differ on a supplier that is not there: on
    [sql.ErrNoRows] GetByID returns the error "supplier not found", while
    GetByEmail returns neither a supplier nor an error, and it does so in
    no other case; GetByID never returns nil, nil.  The sentinel is
    recognised by identity only: wrapped in another error it is reported
    as a failure, "failed to get supplier: ...". *)
Theorem lookup_of_missing_supplier :
  forall (D : Type) (db : postgres.DB D) id email d,
    let byID := postgres.returned (postgres.run db (postgres.GetByID id) d) in
    let byEmail := postgres.returned (postgres.run db (postgres.GetByEmail email) d) in
    let answeredID :=
      fst (postgres.answer db
             (postgres.GetContext_Supplier postgres.emptySupplier
                postgres.getByIDQuery [postgres.arg_uuid id]) d) in
    let answeredEmail :=
      fst (postgres.answer db
             (postgres.GetContext_Supplier postgres.emptySupplier
                postgres.getByEmailQuery [postgres.arg_string email]) d) in
    byID <> (None, None)
    /\ (snd answeredID = Some postgres.sql_ErrNoRows ->
        byID = (None, Some (postgres.errors_New "supplier not found")))
    /\ (byEmail = (None, None) <-> snd answeredEmail = Some postgres.sql_ErrNoRows)
    /\ (forall context,
          snd answeredID = Some (postgres.fmt_Errorf context postgres.sql_ErrNoRows) ->
          byID = (None,
                  Some (postgres.fmt_Errorf "failed to get supplier: "
                          (postgres.fmt_Errorf context postgres.sql_ErrNoRows)))).
Proof.
  intros D db id email d byID byEmail answeredID answeredEmail.
  subst byID byEmail answeredID answeredEmail.
  unfold postgres.GetByID, postgres.GetByEmail. cbn [postgres.run].
  destruct (postgres.answer db
              (postgres.GetContext_Supplier _ postgres.getByIDQuery _) d)
    as [[s1 e1] d1].
  destruct (postgres.answer db
              (postgres.GetContext_Supplier _ postgres.getByEmailQuery _) d)
    as [[s2 e2] d2].
  cbn [fst snd].
  split; [| split; [| split]].
  - destruct e1 as [[ | t | c e] |]; pg_settle; discriminate.
  - intros ->. reflexivity.
  - destruct e2 as [[ | t | c e] |]; pg_settle; split; intros H;
      try discriminate H; reflexivity.
  - intros context ->. reflexivity.
Qed.

Lemma lookup_of_missing_supplier_witness :
  postgres.returned (postgres.run postgres.canned (postgres.GetByID 42%N) postgres.missing)
    = (None, Some (postgres.errors_New "supplier not found"))
  /\ postgres.returned
       (postgres.run postgres.canned (postgres.GetByEmail "sales@acme.test") postgres.missing)
    = (None, None).
Proof.
  destruct (@lookup_of_missing_supplier postgres.Canned postgres.canned 42%N
              "sales@acme.test"%string postgres.missing)
    as (_ & HbyID & HbyEmail & _).
  split; [apply HbyID; reflexivity | apply HbyEmail; reflexivity].
Defined.

(** ** [List] *)

(** X18.  List asks for the page only after the count succeeded.  On any
    failure it returns a nil slice and a total of 0 with the wrapped
    error, also when the count itself had succeeded; it returns without
    error exactly when both statements went through, and then hands back
    the page as selected with the total as counted. *)
Theorem list_result :
  forall (D : Type) (db : postgres.DB D) limit offset d,
    let r := postgres.run db (postgres.List limit offset) d in
    let counted :=
      postgres.answer db (postgres.GetContext_int64 0 postgres.countQuery []) d in
    let selected :=
      postgres.answer db
        (postgres.SelectContext nil_slice postgres.listQuery
           [postgres.arg_int limit; postgres.arg_int offset]) (snd counted) in
    (snd (fst counted) <> None ->
     postgres.calls (postgres.trace r)
     = [postgres.GetContext_int64 0 postgres.countQuery []])
    /\ (forall e, snd (postgres.returned r) = Some e ->
                  fst (postgres.returned r) = (nil_slice, 0%Z))
    /\ (snd (postgres.returned r) = None <->
        snd (fst counted) = None /\ snd (fst selected) = None)
    /\ (snd (postgres.returned r) = None ->
        postgres.returned r = (fst (fst selected), fst (fst counted), None)).
Proof.
  intros D db limit offset d r counted selected. subst r counted selected.
  unfold postgres.List. cbn [postgres.run].
  destruct (postgres.answer db (postgres.GetContext_int64 _ _ _) d)
    as [[total [e1 |]] d1]; cbn [fst snd]; pg_settle.
  - split; [| split; [| split]].
    + reflexivity.
    + reflexivity.
    + split; [discriminate | intros [H _]; discriminate H].
    + discriminate.
  - destruct (postgres.answer db (postgres.SelectContext _ _ _) d1)
      as [[page [e2 |]] d2]; cbn [fst snd]; pg_settle.
    + split; [| split; [| split]].
      * intros H. congruence.
      * reflexivity.
      * split; [discriminate | intros [_ H]; discriminate H].
      * discriminate.
    + split; [| split; [| split]].
      * intros H. congruence.
      * discriminate.
      * split; [intros _; split; reflexivity | reflexivity].
      * reflexivity.
Qed.

Lemma list_result_witness :
  postgres.returned (postgres.run postgres.canned (postgres.List 10 0) postgres.healthy)
    = (mk_slice [postgres.acme], 1%Z, None)
  /\ postgres.calls
       (postgres.trace (postgres.run postgres.canned (postgres.List 10 0) postgres.down))
    = [postgres.GetContext_int64 0 postgres.countQuery []]
  /\ fst (postgres.returned (postgres.run postgres.canned (postgres.List 10 0) postgres.down))
    = (nil_slice, 0%Z).
Proof.
  destruct (@list_result postgres.Canned postgres.canned 10%Z 0%Z postgres.healthy)
    as (_ & _ & _ & Hok).
  destruct (@list_result postgres.Canned postgres.canned 10%Z 0%Z postgres.down)
    as (Hshort & Hnil & _).
  split; [apply Hok; reflexivity |].
  split; [apply Hshort; discriminate |].
  eapply Hnil. reflexivity.
Defined.
